(** * The OpenID Connect authorize endpoint of authelia

    A shallow embedding of [internal/oidc/oauth2_auth.go]:
    [getOIDCClientConfig], [authorizeHandler] and the two entry points
    [AuthorizeEndpointGet] and [AuthorizeEndpointPost].

    The handler is effectful.  It reads and rewrites the user session
    through the session provider, asks the authorizer for the required
    level, reads proxy headers through the request context, calls the
    OAuth2 provider (fosite) and writes an HTTP answer.  The embedding
    threads the stored session record explicitly and records every call
    to a collaborator, in order, in a trace of [Event]s.  Logging calls
    ([ctx.Logger], [logging.Logger], [log.Printf]) touch neither the
    session, the answer nor a collaborator and are left out. *)

From Stdlib Require Import String List Bool ZArith Lia Permutation.
Import ListNotations.
Local Open Scope string_scope.
Local Open Scope list_scope.

(** ** Data model *)

(** A Go [error], kept as the text of [err.Error()]. *)
Definition error := string.

(** [*url.URL], kept as the text [String()] renders. *)
Definition URL := string.
Definition URL_String (u : URL) : string := u.

(** Modelled from the spec: the declarations of [authentication.Level]
    and [authorization.Level] are not part of the sources at hand.  The
    specification describes one ordered rank, unauthenticated, one-factor,
    two-factor, and a bypass rank. *)
Inductive Level : Type :=
| Bypass
| NotAuthenticated
| OneFactor
| TwoFactor.

(** [session.OIDCWorkflowSession], with the six fields the specification
    lists; the handler assigns five of them. *)
Record OIDCWorkflowSession : Type := {
  ClientID : string;
  RequestedScopes : list string;
  GrantedScopes : list string;
  AuthURI : string;
  TargetURI : string;
  RequiredAuthorizationLevel : Level
}.

(** [session.UserSession], restricted to the fields the handler touches.
    The Go field [OIDCWorkflowSession] is a pointer: [None] is [nil]. *)
Record UserSession : Type := {
  Username : string;
  Groups : list string;
  AuthenticationLevel : Level;
  Workflow : option OIDCWorkflowSession
}.

(** [userSession.OIDCWorkflowSession = w] *)
Definition set_Workflow (w : option OIDCWorkflowSession) (s : UserSession)
  : UserSession :=
  {| Username := Username s;
     Groups := Groups s;
     AuthenticationLevel := AuthenticationLevel s;
     Workflow := w |}.

(** [schema.OpenIDConnectClientConfiguration] and
    [schema.OpenIDConnectConfiguration]: the handler reads only [ID]. *)
Record OpenIDConnectClientConfiguration : Type := {
  ID : string;
  Description : string
}.

Record OpenIDConnectConfiguration : Type := {
  Clients : list OpenIDConnectClientConfiguration
}.

(** [authorization.Subject] and the object [authorization.NewObjectRaw]
    builds from the target URL and the method. *)
Record Subject : Type := {
  subject_Username : string;
  subject_Groups : list string;
  subject_IP : string
}.

Record Object : Type := {
  object_URL : URL;
  object_Method : string
}.

Definition NewObjectRaw (targetURL : URL) (method : string) : Object :=
  {| object_URL := targetURL; object_Method := method |}.

(** [fosite.AuthorizeRequester], the parsed request: an object the handler
    mutates with [GrantScope] and [GrantAudience].  Both return at once
    when the value is already granted and append it otherwise. *)
Record AuthorizeRequest : Type := {
  GetID : string;
  GetClient_GetID : string;
  GetRedirectURI : URL;
  GetRequestedScopes : list string;
  GetGrantedScopes : list string;
  GetRequestedAudience : list string;
  GetGrantedAudience : list string
}.

Definition GrantScope (ar : AuthorizeRequest) (scope : string)
  : AuthorizeRequest :=
  if existsb (String.eqb scope) (GetGrantedScopes ar) then ar
  else
    {| GetID := GetID ar;
       GetClient_GetID := GetClient_GetID ar;
       GetRedirectURI := GetRedirectURI ar;
       GetRequestedScopes := GetRequestedScopes ar;
       GetGrantedScopes := GetGrantedScopes ar ++ [scope];
       GetRequestedAudience := GetRequestedAudience ar;
       GetGrantedAudience := GetGrantedAudience ar |}.

Definition GrantAudience (ar : AuthorizeRequest) (a : string)
  : AuthorizeRequest :=
  if existsb (String.eqb a) (GetGrantedAudience ar) then ar
  else
    {| GetID := GetID ar;
       GetClient_GetID := GetClient_GetID ar;
       GetRedirectURI := GetRedirectURI ar;
       GetRequestedScopes := GetRequestedScopes ar;
       GetGrantedScopes := GetGrantedScopes ar;
       GetRequestedAudience := GetRequestedAudience ar;
       GetGrantedAudience := GetGrantedAudience ar ++ [a] |}.

(** The raw [*http.Request]; only the protocol engine looks inside. *)
Record http_Request : Type := {
  request_Method : string;
  request_URL : string
}.

(** ** Client registry lookup *)

(** [getOIDCClientConfig]: the first client of the configuration whose
    [ID] is [clientID], [None] (Go [nil]) when the loop ends. *)
Fixpoint getOIDCClientConfig_loop (clientID : string)
    (clients : list OpenIDConnectClientConfiguration)
  : option OpenIDConnectClientConfiguration :=
  match clients with
  | [] => None
  | c :: rest =>
      if String.eqb clientID (ID c) then Some c
      else getOIDCClientConfig_loop clientID rest
  end.

Definition getOIDCClientConfig (clientID : string)
    (configuration : OpenIDConnectConfiguration)
  : option OpenIDConnectClientConfiguration :=
  getOIDCClientConfig_loop clientID (Clients configuration).

(** ** Collaborators and effects *)

Section Model.

(** [openid.DefaultSession] and [fosite.AuthorizeResponder] belong to the
    protocol engine; the handler only passes them on. *)
Context {OAuthSession AuthorizeResponder : Type}.

(** [fosite.OAuth2Provider], the part the handler calls that returns
    something.  A Go pair [(value, err)] is a pair with an optional error;
    [NewAuthorizeRequest] hands back a request object even when it fails,
    and the handler passes that object to [WriteAuthorizeError]. *)
Record OAuth2Provider : Type := {
  NewAuthorizeRequest : http_Request -> AuthorizeRequest * option error;
  NewAuthorizeResponse :
    AuthorizeRequest -> OAuthSession -> AuthorizeResponder * option error
}.

(** [middlewares.AutheliaCtx] for one request: the OIDC configuration
    ([ctx.Configuration.IdentityProviders.OIDC], assumed set since the
    endpoint is only served when it is), the authorizer, the remote
    address, what the proxy headers resolve to, and the verdict of the
    session provider on a save. *)
Record AutheliaCtx : Type := {
  Configuration_IdentityProviders_OIDC : OpenIDConnectConfiguration;
  Providers_Authorizer_GetRequiredLevel : Subject -> Object -> Level;
  RemoteIP : string;
  GetOriginalURL : URL * option error;
  ForwardedProtoHost : string * option error;
  Providers_SessionProvider_SaveSession : UserSession -> option error
}.

(** Functions of other packages that the handler calls:
    [authorization.IsAuthLevelSufficient], [utils.IsStringSlicesDifferent]
    and [newSession] of package oidc.  [newSession] receives the context,
    through which it can read the stored session. *)
Class Helpers : Type := {
  IsAuthLevelSufficient : Level -> Level -> bool;
  IsStringSlicesDifferent : list string -> list string -> bool;
  newSession :
    AutheliaCtx -> UserSession -> list string -> list string -> OAuthSession
}.

(** One entry per call that leaves the handler. *)
Inductive Event : Type :=
| EvNewAuthorizeRequest (r : http_Request)
| EvWriteAuthorizeError (ar : AuthorizeRequest) (err : error)
| EvGetSession
| EvGetRequiredLevel (subject : Subject) (object : Object)
| EvGetOriginalURL (result : URL * option error)
| EvSaveSession (userSession : UserSession) (err : option error)
| EvForwardedProtoHost (result : string * option error)
| EvHttpError (msg : string) (code : Z)
| EvHttpRedirect (url : string) (code : Z)
| EvNewAuthorizeResponse (ar : AuthorizeRequest) (session : OAuthSession)
| EvWriteAuthorizeResponse (ar : AuthorizeRequest)
    (response : AuthorizeResponder).

(** A computation takes the session record held by the store and returns
    a value, the record the store holds afterwards and the calls made. *)
Definition M (A : Type) : Type :=
  UserSession -> A * UserSession * list Event.

Definition ret {A : Type} (a : A) : M A :=
  fun store => (a, store, []).

Definition bind {A B : Type} (m : M A) (k : A -> M B) : M B :=
  fun store =>
    let '(a, store1, t1) := m store in
    let '(b, store2, t2) := k a store1 in
    (b, store2, t1 ++ t2).

Definition call (e : Event) : M unit :=
  fun store => (tt, store, [e]).

Definition stored {A : Type} (x : A * UserSession * list Event)
  : UserSession := snd (fst x).

Definition trace {A : Type} (x : A * UserSession * list Event)
  : list Event := snd x.

Notation "x <- m ;; k" := (bind m (fun x => k))
  (at level 61, m at next level, right associativity).
Notation "m ;; k" := (bind m (fun _ => k))
  (at level 61, right associativity).

(** [ctx.GetSession()]: a copy of the record the store holds. *)
Definition GetSession : M UserSession :=
  fun store => (store, store, [EvGetSession]).

(** [ctx.SaveSession(userSession)]: the store holds [userSession]
    afterwards unless the provider reports an error. *)
Definition SaveSession (ctx : AutheliaCtx) (userSession : UserSession)
  : M (option error) :=
  fun store =>
    match Providers_SessionProvider_SaveSession ctx userSession with
    | Some err => (Some err, store, [EvSaveSession userSession (Some err)])
    | None => (None, userSession, [EvSaveSession userSession None])
    end.

(** ** The authorize handler *)

Context {helpers : Helpers}.

(** Line 73, the local [isAuthInsufficient]. *)
Definition isAuthInsufficient (userSession : UserSession)
    (requiredAuthorizationLevel : Level) : bool :=
  negb (IsAuthLevelSufficient (AuthenticationLevel userSession)
          requiredAuthorizationLevel).

(** Lines 74-75, the local [isConsentMissing]; [&&] and [||] of Go
    evaluate left to right and stop early, so the slices are compared only
    when the workflow pointer is not [nil]. *)
Definition isConsentMissing (ar : AuthorizeRequest)
    (userSession : UserSession) : bool :=
  (0 <? length (GetRequestedScopes ar))%nat &&
  match Workflow userSession with
  | None => true
  | Some workflow =>
      IsStringSlicesDifferent (GetRequestedScopes ar) (GrantedScopes workflow)
  end.

(** Lines 87-92: [new(session.OIDCWorkflowSession)] followed by the five
    assignments.  [GrantedScopes] is not assigned and keeps the zero value
    of a slice, [nil]. *)
Definition beginWorkflow (clientID : string) (ar : AuthorizeRequest)
    (forwardedURI targetURL : URL) (requiredAuthorizationLevel : Level)
  : OIDCWorkflowSession :=
  {| ClientID := clientID;
     RequestedScopes := GetRequestedScopes ar;
     GrantedScopes := [];
     AuthURI := URL_String forwardedURI;
     TargetURI := URL_String targetURL;
     RequiredAuthorizationLevel := requiredAuthorizationLevel |}.

(** Lines 78-115, the body of [if isAuthInsufficient || isConsentMissing]. *)
Definition authorizeHandler_pending (ctx : AutheliaCtx)
    (ar : AuthorizeRequest) (clientID : string) (targetURL : URL)
    (userSession : UserSession) (requiredAuthorizationLevel : Level)
    (consentMissing : bool) : M unit :=
  let '(forwardedURI, err) := GetOriginalURL ctx in
  call (EvGetOriginalURL (forwardedURI, err)) ;;
  match err with
  | Some err => call (EvHttpError err 500)
  | None =>
      let userSession :=
        set_Workflow
          (Some (beginWorkflow clientID ar forwardedURI targetURL
                   requiredAuthorizationLevel))
          userSession in
      err <- SaveSession ctx userSession ;;
      match err with
      | Some err => call (EvHttpError err 500)
      | None =>
          let '(uri, err) := ForwardedProtoHost ctx in
          call (EvForwardedProtoHost (uri, err)) ;;
          match err with
          | Some err => call (EvHttpError err 500)
          | None =>
              if consentMissing
              then call (EvHttpRedirect (uri ++ "/consent") 302)
              else call (EvHttpRedirect (uri ++ "?workflow=openid") 302)
          end
      end
  end.

(** Lines 119-163, reached when [post] holds or when neither condition of
    line 77 does. *)
Definition authorizeHandler_finalize (oauth2 : OAuth2Provider)
    (ctx : AutheliaCtx) (ar : AuthorizeRequest) : M unit :=
  let scopes := GetRequestedScopes ar in
  let ar := fold_left GrantScope scopes ar in
  let audience := GetRequestedAudience ar in
  let ar := fold_left GrantAudience audience ar in
  userSession <- GetSession ;;
  let userSession := set_Workflow None userSession in
  err <- SaveSession ctx userSession ;;
  match err with
  | Some err => call (EvHttpError err 500)
  | None =>
      oauthSession <- (fun store =>
                         (newSession ctx store scopes audience, store, [])) ;;
      let '(response, err) := NewAuthorizeResponse oauth2 ar oauthSession in
      call (EvNewAuthorizeResponse ar oauthSession) ;;
      match err with
      | Some err => call (EvWriteAuthorizeError ar err)
      | None => call (EvWriteAuthorizeResponse ar response)
      end
  end.

(** [authorizeHandler], lines 40-164. *)
Definition authorizeHandler (oauth2 : OAuth2Provider) (ctx : AutheliaCtx)
    (r : http_Request) (post : bool) : M unit :=
  let '(ar, err) := NewAuthorizeRequest oauth2 r in
  call (EvNewAuthorizeRequest r) ;;
  match err with
  | Some err => call (EvWriteAuthorizeError ar err)
  | None =>
      let clientID := GetClient_GetID ar in
      let clientConfig :=
        getOIDCClientConfig clientID
          (Configuration_IdentityProviders_OIDC ctx) in
      match clientConfig with
      | None =>
          let err :=
            ("Unable to find related client configuration with name "
               ++ GetID ar)%string in
          call (EvWriteAuthorizeError ar err)
      | Some _ =>
          if negb post then
            let targetURL := GetRedirectURI ar in
            userSession <- GetSession ;;
            let subject :=
              {| subject_Username := Username userSession;
                 subject_Groups := Groups userSession;
                 subject_IP := RemoteIP ctx |} in
            let object := NewObjectRaw targetURL "GET" in
            call (EvGetRequiredLevel subject object) ;;
            let requiredAuthorizationLevel :=
              Providers_Authorizer_GetRequiredLevel ctx subject object in
            let authInsufficient :=
              isAuthInsufficient userSession requiredAuthorizationLevel in
            let consentMissing := isConsentMissing ar userSession in
            if authInsufficient || consentMissing then
              authorizeHandler_pending ctx ar clientID targetURL userSession
                requiredAuthorizationLevel consentMissing
            else authorizeHandler_finalize oauth2 ctx ar
          else authorizeHandler_finalize oauth2 ctx ar
      end
  end.

(** [AuthorizeEndpointPost] and [AuthorizeEndpointGet]. *)
Definition AuthorizeEndpointPost (oauth2 : OAuth2Provider)
    (ctx : AutheliaCtx) (r : http_Request) : M unit :=
  authorizeHandler oauth2 ctx r true.

Definition AuthorizeEndpointGet (oauth2 : OAuth2Provider)
    (ctx : AutheliaCtx) (r : http_Request) : M unit :=
  authorizeHandler oauth2 ctx r false.

End Model.

Arguments OAuth2Provider : clear implicits.
Arguments Helpers : clear implicits.
Arguments Event : clear implicits.
Arguments M : clear implicits.

(** ** Reading a trace *)

Section Traces.

Context {OAuthSession AuthorizeResponder : Type}.
Let Ev := Event OAuthSession AuthorizeResponder.

(** A call to the session provider that writes. *)
Definition is_save (e : Ev) : bool :=
  match e with
  | EvSaveSession _ _ => true
  | _ => false
  end.

(** A call to the session provider, read or write. *)
Definition is_session_access (e : Ev) : bool :=
  match e with
  | EvGetSession | EvSaveSession _ _ => true
  | _ => false
  end.

(** A call that writes the HTTP answer. *)
Definition is_response (e : Ev) : bool :=
  match e with
  | EvWriteAuthorizeError _ _ | EvWriteAuthorizeResponse _ _
  | EvHttpError _ _ | EvHttpRedirect _ _ => true
  | _ => false
  end.

Definition is_redirect (e : Ev) : bool :=
  match e with
  | EvHttpRedirect _ _ => true
  | _ => false
  end.

(** A call to the authorizer, the policy engine. *)
Definition is_policy (e : Ev) : bool :=
  match e with
  | EvGetRequiredLevel _ _ => true
  | _ => false
  end.

(** A call to the response builder of the protocol engine. *)
Definition is_build (e : Ev) : bool :=
  match e with
  | EvNewAuthorizeResponse _ _ => true
  | _ => false
  end.

(** A call of the pending branch that came back with an error. *)
Definition is_infrastructure_error (e : Ev) : bool :=
  match e with
  | EvGetOriginalURL (_, Some _) => true
  | EvSaveSession _ (Some _) => true
  | EvForwardedProtoHost (_, Some _) => true
  | _ => false
  end.

(** A save of a session that carries a workflow. *)
Definition installs_workflow (e : Ev) : bool :=
  match e with
  | EvSaveSession s _ =>
      match Workflow s with Some _ => true | None => false end
  | _ => false
  end.

End Traces.

(** ** The branch the handler takes *)

Section Branches.

Context {OAuthSession AuthorizeResponder : Type}.
Context {helpers : Helpers OAuthSession}.

(** The subject and the level of lines 67-71, for the session the store
    holds when the handler reads it. *)
Definition subjectOf (ctx : AutheliaCtx) (userSession : UserSession)
  : Subject :=
  {| subject_Username := Username userSession;
     subject_Groups := Groups userSession;
     subject_IP := RemoteIP ctx |}.

Definition requiredLevelOf (ctx : AutheliaCtx) (ar : AuthorizeRequest)
    (userSession : UserSession) : Level :=
  Providers_Authorizer_GetRequiredLevel ctx (subjectOf ctx userSession)
    (NewObjectRaw (GetRedirectURI ar) "GET").

(** The request parsed into [ar] and its client is registered: the
    handler gets past line 60. *)
Definition admitted (oauth2 : OAuth2Provider OAuthSession AuthorizeResponder)
    (ctx : AutheliaCtx) (r : http_Request) (ar : AuthorizeRequest) : Prop :=
  NewAuthorizeRequest oauth2 r = (ar, None) /\
  getOIDCClientConfig (GetClient_GetID ar)
    (Configuration_IdentityProviders_OIDC ctx) <> None.

(** The condition of line 77. *)
Definition pendingCondition (ctx : AutheliaCtx) (ar : AuthorizeRequest)
    (userSession : UserSession) : bool :=
  isAuthInsufficient userSession (requiredLevelOf ctx ar userSession)
  || isConsentMissing ar userSession.

(** The session record line 94 hands to [SaveSession]. *)
Definition pendingSession (ctx : AutheliaCtx) (ar : AuthorizeRequest)
    (userSession : UserSession) : UserSession :=
  set_Workflow
    (Some (beginWorkflow (GetClient_GetID ar) ar (fst (GetOriginalURL ctx))
             (GetRedirectURI ar) (requiredLevelOf ctx ar userSession)))
    userSession.

(** The request object after the two loops of lines 122-130. *)
Definition grantAll (ar : AuthorizeRequest) : AuthorizeRequest :=
  fold_left GrantAudience
    (GetRequestedAudience (fold_left GrantScope (GetRequestedScopes ar) ar))
    (fold_left GrantScope (GetRequestedScopes ar) ar).

(** The calls every browser-navigation invocation makes before line 77. *)
Definition decisionCalls (ctx : AutheliaCtx) (r : http_Request)
    (ar : AuthorizeRequest) (store : UserSession)
  : list (Event OAuthSession AuthorizeResponder) :=
  [ EvNewAuthorizeRequest r;
    EvGetSession;
    EvGetRequiredLevel (subjectOf ctx store)
      (NewObjectRaw (GetRedirectURI ar) "GET") ].

(** The calls made before the finalize branch is entered: the parse alone
    on the post path, the three decision calls otherwise. *)
Definition openingCalls (ctx : AutheliaCtx) (r : http_Request)
    (ar : AuthorizeRequest) (store : UserSession) (post : bool)
  : list (Event OAuthSession AuthorizeResponder) :=
  if post then [EvNewAuthorizeRequest r] else decisionCalls ctx r ar store.

(** The handler gets to line 119: the request is admitted and either the
    entry point is the post one or the condition of line 77 fails. *)
Definition finalizes (oauth2 : OAuth2Provider OAuthSession AuthorizeResponder)
    (ctx : AutheliaCtx) (r : http_Request) (ar : AuthorizeRequest)
    (post : bool) (store : UserSession) : Prop :=
  admitted oauth2 ctx r ar
  /\ (post = true \/ pendingCondition ctx ar store = false).

End Branches.

(** ** Vocabulary of the statements *)

(** Two slices hold the same strings, whatever the order and the
    repetitions. *)
Definition sameSet (a b : list string) : Prop :=
  forall s, In s a <-> In s b.

(** The workflow [w] as another client would have left it. *)
Definition withClientID (clientID : string) (w : OIDCWorkflowSession)
  : OIDCWorkflowSession :=
  {| ClientID := clientID;
     RequestedScopes := RequestedScopes w;
     GrantedScopes := GrantedScopes w;
     AuthURI := AuthURI w;
     TargetURI := TargetURI w;
     RequiredAuthorizationLevel := RequiredAuthorizationLevel w |}.

(** ** The helpers of other packages, from their description *)

Module utils.

Definition IsStringInSlice (a : string) (list : list string) : bool :=
  existsb (String.eqb a) list.

(** Modelled from the spec: [utils.IsStringSlicesDifferent] is not part of
    the sources at hand.  The two slices differ under a
    symmetric-difference comparison: some element of one is not an
    element of the other, whatever the order. *)
Definition IsStringSlicesDifferent (a b : list string) : bool :=
  existsb (fun s => negb (IsStringInSlice s b)) a
  || existsb (fun s => negb (IsStringInSlice s a)) b.

End utils.

Module authorization.

Definition rank (l : Level) : nat :=
  match l with
  | Bypass => 0
  | NotAuthenticated => 0
  | OneFactor => 1
  | TwoFactor => 2
  end.

(** Modelled from the spec: [authorization.IsAuthLevelSufficient] is not
    part of the sources at hand.  Insufficient means that the current
    rank is strictly lower than the required rank; a required level of
    bypass is always met. *)
Definition IsAuthLevelSufficient (authenticationLevel authorizationLevel
  : Level) : bool :=
  (rank authorizationLevel <=? rank authenticationLevel)%nat.

End authorization.

(** ** A concrete deployment

    Two registered clients, a protocol engine that parses every request
    into a given request object, and a context whose header resolutions
    and session provider succeed or fail as told. *)

Module Scenario.

(** The authorization session: the principal and the granted claims. *)
Record Session : Type := {
  session_Subject : string;
  session_Scopes : list string;
  session_Audience : list string
}.

Definition helpers : Helpers Session :=
  {| IsAuthLevelSufficient := authorization.IsAuthLevelSufficient;
     IsStringSlicesDifferent := utils.IsStringSlicesDifferent;
     newSession := fun _ store scopes audience =>
       {| session_Subject := Username store;
          session_Scopes := scopes;
          session_Audience := audience |} |}.

Definition registry : OpenIDConnectConfiguration :=
  {| Clients :=
       [ {| ID := "app"; Description := "Application" |};
         {| ID := "wiki"; Description := "Wiki" |} ] |}.

Definition request : http_Request :=
  {| request_Method := "GET"; request_URL := "/api/oidc/authorize" |}.

Definition authorizeRequest (client : string) (scopes : list string)
  : AuthorizeRequest :=
  {| GetID := "req-1";
     GetClient_GetID := client;
     GetRedirectURI := "https://app.example.com/callback";
     GetRequestedScopes := scopes;
     GetGrantedScopes := [];
     GetRequestedAudience := ["https://app.example.com"];
     GetGrantedAudience := [] |}.

Definition provider (ar : AuthorizeRequest) (parseErr buildErr : option error)
  : OAuth2Provider Session string :=
  {| NewAuthorizeRequest := fun _ => (ar, parseErr);
     NewAuthorizeResponse := fun _ _ => ("code=abc", buildErr) |}.

Definition context (required : Level) (originalURL : URL * option error)
    (protoHost : string * option error) (saveErr : option error)
  : AutheliaCtx :=
  {| Configuration_IdentityProviders_OIDC := registry;
     Providers_Authorizer_GetRequiredLevel := fun _ _ => required;
     RemoteIP := "192.168.1.10";
     GetOriginalURL := originalURL;
     ForwardedProtoHost := protoHost;
     Providers_SessionProvider_SaveSession := fun _ => saveErr |}.

Definition originalURL : URL * option error :=
  ("https://auth.example.com/api/oidc/authorize", None).

Definition protoHost : string * option error :=
  ("https://auth.example.com", None).

Definition john (level : Level) (workflow : option OIDCWorkflowSession)
  : UserSession :=
  {| Username := "john";
     Groups := ["dev"];
     AuthenticationLevel := level;
     Workflow := workflow |}.

(** A workflow a consent step has completed for [client]. *)
Definition consented (client : string) (scopes : list string)
  : OIDCWorkflowSession :=
  {| ClientID := client;
     RequestedScopes := scopes;
     GrantedScopes := scopes;
     AuthURI := "https://auth.example.com/api/oidc/authorize";
     TargetURI := "https://app.example.com/callback";
     RequiredAuthorizationLevel := OneFactor |}.

End Scenario.

#[global] Existing Instance Scenario.helpers.

(** * Properties *)

(** ** The lookup *)

Lemma getOIDCClientConfig_loop_Some (clientID : string)
    (clients : list OpenIDConnectClientConfiguration)
    (c : OpenIDConnectClientConfiguration) :
  getOIDCClientConfig_loop clientID clients = Some c ->
  In c clients /\ ID c = clientID.
Proof.
  induction clients as [|c0 rest IH]; simpl; [discriminate|].
  destruct (String.eqb_spec clientID (ID c0)) as [E|NE].
  - intros [= <-]. split; [now left | now symmetry].
  - intros H. destruct (IH H) as [HIn HID]. split; [now right | exact HID].
Qed.

Lemma getOIDCClientConfig_loop_None (clientID : string)
    (clients : list OpenIDConnectClientConfiguration) :
  getOIDCClientConfig_loop clientID clients = None <->
  (forall c, In c clients -> ID c <> clientID).
Proof.
  induction clients as [|c0 rest IH]; simpl.
  - split; [intros _ c [] | reflexivity].
  - destruct (String.eqb_spec clientID (ID c0)) as [E|NE].
    + split; [discriminate|]. intros H. exfalso. apply (H c0); auto.
    + rewrite IH. split.
      * intros H c [<-|HIn]; [congruence | now apply H].
      * intros H c HIn. apply H. now right.
Qed.

(** ** The loops that grant scopes and audiences *)

Lemma String_eqb_mem (x : string) (l : list string) :
  existsb (String.eqb x) l = true <-> In x l.
Proof.
  rewrite existsb_exists. split.
  - intros (y & HIn & E). apply String.eqb_eq in E. now subst.
  - intros HIn. exists x. split; [exact HIn | apply String.eqb_refl].
Qed.

Lemma GrantScope_granted (ar : AuthorizeRequest) (scope s : string) :
  In s (GetGrantedScopes (GrantScope ar scope))
  <-> In s (GetGrantedScopes ar) \/ s = scope.
Proof.
  unfold GrantScope.
  destruct (existsb (String.eqb scope) (GetGrantedScopes ar)) eqn:E.
  - apply String_eqb_mem in E. split; [now left|].
    intros [H| ->]; assumption.
  - simpl. rewrite in_app_iff. simpl. split.
    + intros [H|[<-|[]]]; auto.
    + intros [H| ->]; auto.
Qed.

Lemma GrantScope_frame (ar : AuthorizeRequest) (scope : string) :
  GetRequestedScopes (GrantScope ar scope) = GetRequestedScopes ar
  /\ GetRequestedAudience (GrantScope ar scope) = GetRequestedAudience ar
  /\ GetGrantedAudience (GrantScope ar scope) = GetGrantedAudience ar.
Proof.
  unfold GrantScope.
  destruct (existsb (String.eqb scope) (GetGrantedScopes ar)); now simpl.
Qed.

Lemma GrantAudience_granted (ar : AuthorizeRequest) (a x : string) :
  In x (GetGrantedAudience (GrantAudience ar a))
  <-> In x (GetGrantedAudience ar) \/ x = a.
Proof.
  unfold GrantAudience.
  destruct (existsb (String.eqb a) (GetGrantedAudience ar)) eqn:E.
  - apply String_eqb_mem in E. split; [now left|].
    intros [H| ->]; assumption.
  - simpl. rewrite in_app_iff. simpl. split.
    + intros [H|[<-|[]]]; auto.
    + intros [H| ->]; auto.
Qed.

Lemma GrantAudience_frame (ar : AuthorizeRequest) (a : string) :
  GetGrantedScopes (GrantAudience ar a) = GetGrantedScopes ar.
Proof.
  unfold GrantAudience.
  destruct (existsb (String.eqb a) (GetGrantedAudience ar)); now simpl.
Qed.

Lemma fold_GrantScope_granted (scopes : list string) (ar : AuthorizeRequest)
    (s : string) :
  In s (GetGrantedScopes (fold_left GrantScope scopes ar))
  <-> In s (GetGrantedScopes ar) \/ In s scopes.
Proof.
  revert ar. induction scopes as [|x rest IH]; intros ar; simpl.
  - tauto.
  - rewrite IH, GrantScope_granted. intuition congruence.
Qed.

Lemma fold_GrantScope_frame (scopes : list string) (ar : AuthorizeRequest) :
  GetRequestedScopes (fold_left GrantScope scopes ar) = GetRequestedScopes ar
  /\ GetRequestedAudience (fold_left GrantScope scopes ar)
     = GetRequestedAudience ar
  /\ GetGrantedAudience (fold_left GrantScope scopes ar)
     = GetGrantedAudience ar.
Proof.
  revert ar. induction scopes as [|s rest IH]; intros ar; simpl; [easy|].
  destruct (IH (GrantScope ar s)) as (H1 & H2 & H3).
  destruct (GrantScope_frame ar s) as (F1 & F2 & F3).
  now rewrite H1, H2, H3, F1, F2, F3.
Qed.

Lemma fold_GrantAudience_granted (audience : list string)
    (ar : AuthorizeRequest) (x : string) :
  (In x (GetGrantedAudience (fold_left GrantAudience audience ar))
   <-> In x (GetGrantedAudience ar) \/ In x audience)
  /\ GetGrantedScopes (fold_left GrantAudience audience ar)
     = GetGrantedScopes ar.
Proof.
  revert ar. induction audience as [|a rest IH]; intros ar; simpl.
  - split; [tauto | reflexivity].
  - destruct (IH (GrantAudience ar a)) as [H1 H2]. split.
    + rewrite H1, GrantAudience_granted. intuition congruence.
    + now rewrite H2, GrantAudience_frame.
Qed.

Lemma grantAll_granted (ar : AuthorizeRequest) (x : string) :
  (In x (GetGrantedScopes (grantAll ar))
   <-> In x (GetGrantedScopes ar) \/ In x (GetRequestedScopes ar))
  /\ (In x (GetGrantedAudience (grantAll ar))
      <-> In x (GetGrantedAudience ar) \/ In x (GetRequestedAudience ar)).
Proof.
  unfold grantAll.
  destruct (fold_GrantScope_frame (GetRequestedScopes ar) ar) as (_ & HA & HG).
  destruct (fold_GrantAudience_granted
              (GetRequestedAudience
                 (fold_left GrantScope (GetRequestedScopes ar) ar))
              (fold_left GrantScope (GetRequestedScopes ar) ar) x) as [H1 H2].
  rewrite H2, H1, HA, HG. split; [apply fold_GrantScope_granted | tauto].
Qed.

(** ** Splitting a trace at one of its events *)

Lemma split_at_nil {A : Type} (pre post : list A) (e : A) :
  pre ++ e :: post = [] -> False.
Proof. destruct pre; discriminate. Qed.

Lemma split_at_cons {A : Type} (pre post : list A) (e x : A) (l : list A) :
  pre ++ e :: post = x :: l ->
  (pre = [] /\ e = x /\ post = l)
  \/ (exists pre', pre = x :: pre' /\ pre' ++ e :: post = l).
Proof.
  destruct pre as [|y pre']; simpl; intros H; injection H as H1 H2.
  - left. auto.
  - right. exists pre'. subst y. auto.
Qed.

(** Enumerates the ways a known trace splits as [pre ++ e :: post]. *)
Ltac split_trace H :=
  match type of H with
  | _ ++ _ :: _ = _ => idtac
  | _ = _ ++ _ :: _ => symmetry in H
  end;
  repeat
    (first
       [ exfalso; exact (split_at_nil _ _ _ H)
       | let Hp := fresh "Hpre" in
         let He := fresh "Hev" in
         let Hq := fresh "Hpost" in
         apply split_at_cons in H;
         destruct H as [(Hp & He & Hq) | (? & Hp & H)];
         [ try discriminate He | ] ]).

(** Closes a goal about the events after [e] when [He] says that [e] is a
    call that failed: either nothing is saved afterwards, or [e] did not
    fail. *)
Ltac after_error He :=
  first
    [ reflexivity
    | discriminate He
    | simpl in He;
      match type of He with
      | context [match ?p with pair _ _ => _ end] =>
          destruct p as [? [?|]]; simpl in *; congruence
      end ].

(** ** What each path of the handler does *)

Section Paths.

Context {OAuthSession AuthorizeResponder : Type}.
Context {helpers : Helpers OAuthSession}.
Variable oauth2 : OAuth2Provider OAuthSession AuthorizeResponder.
Variable ctx : AutheliaCtx.

Lemma handler_parse_error (r : http_Request) (post : bool)
    (store : UserSession) (ar : AuthorizeRequest) (err : error) :
  NewAuthorizeRequest oauth2 r = (ar, Some err) ->
  authorizeHandler oauth2 ctx r post store
  = (tt, store, [EvNewAuthorizeRequest r; EvWriteAuthorizeError ar err]).
Proof.
  intros H. unfold authorizeHandler. rewrite H. reflexivity.
Qed.

Lemma handler_client_not_found (r : http_Request) (post : bool)
    (store : UserSession) (ar : AuthorizeRequest) :
  NewAuthorizeRequest oauth2 r = (ar, None) ->
  getOIDCClientConfig (GetClient_GetID ar)
    (Configuration_IdentityProviders_OIDC ctx) = None ->
  authorizeHandler oauth2 ctx r post store
  = (tt, store,
     [EvNewAuthorizeRequest r;
      EvWriteAuthorizeError ar
        ("Unable to find related client configuration with name "
           ++ GetID ar)%string]).
Proof.
  intros H1 H2. unfold authorizeHandler. rewrite H1, H2. reflexivity.
Qed.

Lemma handler_post (r : http_Request) (store : UserSession)
    (ar : AuthorizeRequest) :
  admitted oauth2 ctx r ar ->
  authorizeHandler oauth2 ctx r true store
  = (tt, stored (authorizeHandler_finalize oauth2 ctx ar store),
     EvNewAuthorizeRequest r
       :: trace (authorizeHandler_finalize oauth2 ctx ar store)).
Proof.
  intros [H1 H2]. unfold authorizeHandler. rewrite H1.
  destruct (getOIDCClientConfig _ _); [|contradiction].
  unfold bind, call, stored, trace. simpl.
  destruct (authorizeHandler_finalize oauth2 ctx ar store) as [[[] s] t].
  reflexivity.
Qed.

Lemma handler_pending (r : http_Request) (store : UserSession)
    (ar : AuthorizeRequest) :
  admitted oauth2 ctx r ar ->
  pendingCondition ctx ar store = true ->
  let run :=
    authorizeHandler_pending ctx ar (GetClient_GetID ar) (GetRedirectURI ar)
      store (requiredLevelOf ctx ar store) (isConsentMissing ar store) store in
  authorizeHandler oauth2 ctx r false store
  = (tt, stored run, decisionCalls ctx r ar store ++ trace run).
Proof.
  intros [H1 H2] HP. unfold authorizeHandler. rewrite H1.
  destruct (getOIDCClientConfig _ _); [|contradiction].
  unfold pendingCondition, requiredLevelOf, subjectOf in HP.
  unfold bind, call, GetSession, stored, trace, decisionCalls, subjectOf.
  simpl. rewrite HP.
  destruct (authorizeHandler_pending _ _ _ _ _ _ _ _) as [[[] s] t].
  reflexivity.
Qed.

Lemma handler_satisfied (r : http_Request) (store : UserSession)
    (ar : AuthorizeRequest) :
  admitted oauth2 ctx r ar ->
  pendingCondition ctx ar store = false ->
  authorizeHandler oauth2 ctx r false store
  = (tt, stored (authorizeHandler_finalize oauth2 ctx ar store),
     decisionCalls ctx r ar store
       ++ trace (authorizeHandler_finalize oauth2 ctx ar store)).
Proof.
  intros [H1 H2] HP. unfold authorizeHandler. rewrite H1.
  destruct (getOIDCClientConfig _ _); [|contradiction].
  unfold pendingCondition, requiredLevelOf, subjectOf in HP.
  unfold bind, call, GetSession, stored, trace, decisionCalls, subjectOf.
  simpl. rewrite HP.
  destruct (authorizeHandler_finalize oauth2 ctx ar store) as [[[] s] t].
  reflexivity.
Qed.

(** The pending branch, call by call. *)
Lemma pending_run (ar : AuthorizeRequest) (userSession store : UserSession)
    (level : Level) (consentMissing : bool) :
  let saved :=
    set_Workflow
      (Some (beginWorkflow (GetClient_GetID ar) ar (fst (GetOriginalURL ctx))
               (GetRedirectURI ar) level)) userSession in
  authorizeHandler_pending ctx ar (GetClient_GetID ar) (GetRedirectURI ar)
    userSession level consentMissing store
  = match snd (GetOriginalURL ctx)
      return unit * UserSession * list (Event OAuthSession AuthorizeResponder)
    with
    | Some err =>
        (tt, store, [EvGetOriginalURL (GetOriginalURL ctx); EvHttpError err 500])
    | None =>
        match Providers_SessionProvider_SaveSession ctx saved with
        | Some err =>
            (tt, store,
             [EvGetOriginalURL (GetOriginalURL ctx);
              EvSaveSession saved (Some err);
              EvHttpError err 500])
        | None =>
            match snd (ForwardedProtoHost ctx) with
            | Some err =>
                (tt, saved,
                 [EvGetOriginalURL (GetOriginalURL ctx);
                  EvSaveSession saved None;
                  EvForwardedProtoHost (ForwardedProtoHost ctx);
                  EvHttpError err 500])
            | None =>
                (tt, saved,
                 [EvGetOriginalURL (GetOriginalURL ctx);
                  EvSaveSession saved None;
                  EvForwardedProtoHost (ForwardedProtoHost ctx);
                  EvHttpRedirect
                    (if consentMissing
                     then fst (ForwardedProtoHost ctx) ++ "/consent"
                     else fst (ForwardedProtoHost ctx) ++ "?workflow=openid")%string
                    302])
            end
        end
    end.
Proof.
  unfold authorizeHandler_pending, bind, call, SaveSession.
  destruct (GetOriginalURL ctx) as [u [e|]]; simpl; [reflexivity|].
  destruct (Providers_SessionProvider_SaveSession ctx _) as [e|]; simpl;
    [reflexivity|].
  destruct (ForwardedProtoHost ctx) as [h [e|]]; simpl; [reflexivity|].
  destruct consentMissing; reflexivity.
Qed.

(** The finalize branch, call by call. *)
Lemma finalize_run (ar : AuthorizeRequest) (store : UserSession) :
  let cleared := set_Workflow None store in
  let oauthSession :=
    newSession ctx cleared (GetRequestedScopes ar) (GetRequestedAudience ar) in
  authorizeHandler_finalize oauth2 ctx ar store
  = match Providers_SessionProvider_SaveSession ctx cleared
      return unit * UserSession * list (Event OAuthSession AuthorizeResponder)
    with
    | Some err =>
        (tt, store,
         [EvGetSession; EvSaveSession cleared (Some err); EvHttpError err 500])
    | None =>
        (tt, cleared,
         [EvGetSession;
          EvSaveSession cleared None;
          EvNewAuthorizeResponse (grantAll ar) oauthSession;
          match snd (NewAuthorizeResponse oauth2 (grantAll ar) oauthSession) with
          | Some err => EvWriteAuthorizeError (grantAll ar) err
          | None =>
              EvWriteAuthorizeResponse (grantAll ar)
                (fst (NewAuthorizeResponse oauth2 (grantAll ar) oauthSession))
          end])
    end.
Proof.
  unfold authorizeHandler_finalize, bind, call, GetSession, SaveSession.
  simpl.
  destruct (Providers_SessionProvider_SaveSession ctx _) as [e|]; simpl;
    [reflexivity|].
  destruct (fold_GrantScope_frame (GetRequestedScopes ar) ar) as (_ & HA & _).
  unfold grantAll. rewrite HA.
  destruct (NewAuthorizeResponse oauth2 _ _) as [resp [e|]]; reflexivity.
Qed.

Lemma handler_finalize (r : http_Request) (post : bool)
    (store : UserSession) (ar : AuthorizeRequest) :
  finalizes oauth2 ctx r ar post store ->
  authorizeHandler oauth2 ctx r post store
  = (tt, stored (authorizeHandler_finalize oauth2 ctx ar store),
     openingCalls ctx r ar store post
       ++ trace (authorizeHandler_finalize oauth2 ctx ar store)).
Proof.
  intros [HA [->|HC]].
  - now rewrite (handler_post r store ar HA).
  - destruct post.
    + now rewrite (handler_post r store ar HA).
    + now rewrite (handler_satisfied r store ar HA HC).
Qed.

(** Every invocation follows one of four paths. *)
Lemma handler_paths (r : http_Request) (post : bool) (store : UserSession) :
  let ar := fst (NewAuthorizeRequest oauth2 r) in
  (exists err,
     authorizeHandler oauth2 ctx r post store
     = (tt, store, [EvNewAuthorizeRequest r; EvWriteAuthorizeError ar err]))
  \/ (admitted oauth2 ctx r ar /\ post = false
      /\ pendingCondition ctx ar store = true)
  \/ finalizes oauth2 ctx r ar post store.
Proof.
  cbv zeta. unfold finalizes, admitted.
  destruct (NewAuthorizeRequest oauth2 r) as [ar [e|]] eqn:HP; simpl.
  - left. exists e. exact (handler_parse_error r post store ar e HP).
  - destruct (getOIDCClientConfig (GetClient_GetID ar)
                (Configuration_IdentityProviders_OIDC ctx)) as [c|] eqn:HL.
    + right. destruct post.
      * right. split; [split; [reflexivity | congruence] | now left].
      * destruct (pendingCondition ctx ar store) eqn:HC.
        -- left. split; [split; [reflexivity | congruence] | auto].
        -- right. split; [split; [reflexivity | congruence] | now right].
    + left. eexists. exact (handler_client_not_found r post store ar HP HL).
Qed.

End Paths.

(** ** The slice comparison *)

Lemma IsStringInSlice_In (a : string) (l : list string) :
  utils.IsStringInSlice a l = true <-> In a l.
Proof.
  unfold utils.IsStringInSlice. rewrite existsb_exists. split.
  - intros (x & HIn & E). apply String.eqb_eq in E. now subst.
  - intros HIn. exists a. split; [exact HIn | apply String.eqb_refl].
Qed.

Lemma none_missing (a b : list string) :
  existsb (fun s => negb (utils.IsStringInSlice s b)) a = false
  <-> incl a b.
Proof.
  induction a as [|x a IH]; simpl.
  - split; [intros _ y [] | reflexivity].
  - rewrite orb_false_iff, negb_false_iff, IsStringInSlice_In, IH. split.
    + intros [Hx Ha] y [<-|Hy]; auto.
    + intros H. split; [apply H; now left |].
      intros y Hy. apply H. now right.
Qed.

Lemma IsStringSlicesDifferent_false (a b : list string) :
  utils.IsStringSlicesDifferent a b = false <-> sameSet a b.
Proof.
  unfold utils.IsStringSlicesDifferent, sameSet.
  rewrite orb_false_iff, !none_missing. unfold incl. split.
  - intros [Hab Hba] s. split; auto.
  - intros H. split; intros s Hs; now apply H.
Qed.

Lemma IsStringSlicesDifferent_true (a b : list string) :
  utils.IsStringSlicesDifferent a b = true <-> ~ sameSet a b.
Proof.
  rewrite <- IsStringSlicesDifferent_false.
  destruct (utils.IsStringSlicesDifferent a b); split; congruence.
Qed.

Lemma sameSet_Permutation {a a' b b' : list string} :
  Permutation a a' -> Permutation b b' -> sameSet a b -> sameSet a' b'.
Proof.
  intros Ha Hb H s. split; intros Hs.
  - apply (Permutation_in _ Hb), H, (Permutation_in _ (Permutation_sym Ha) Hs).
  - apply (Permutation_in _ Ha), H, (Permutation_in _ (Permutation_sym Hb) Hs).
Qed.

Lemma IsStringSlicesDifferent_Permutation {a a' b b' : list string} :
  Permutation a a' -> Permutation b b' ->
  utils.IsStringSlicesDifferent a b = utils.IsStringSlicesDifferent a' b'.
Proof.
  intros Ha Hb.
  destruct (utils.IsStringSlicesDifferent a' b') eqn:E.
  - apply IsStringSlicesDifferent_true. intros H.
    apply IsStringSlicesDifferent_true in E. apply E.
    exact (sameSet_Permutation Ha Hb H).
  - apply IsStringSlicesDifferent_false.
    apply IsStringSlicesDifferent_false in E.
    exact (sameSet_Permutation (Permutation_sym Ha) (Permutation_sym Hb) E).
Qed.

(** ** The claims *)

Section Claims.

Context {OAuthSession AuthorizeResponder : Type}.
Context {helpers : Helpers OAuthSession}.
Variable oauth2 : OAuth2Provider OAuthSession AuthorizeResponder.
Variable ctx : AutheliaCtx.

(** C3.  With the slice comparison the specification describes, the
    consent decision of lines 74-75 is: never missing when no scope is
    requested; otherwise missing exactly when the session has no workflow
    or the requested scopes and the workflow's granted scopes are not the
    same set.  Reordering either list does not change the decision. *)
Theorem C3_consent_missing_decision
    (ar : AuthorizeRequest) (userSession : UserSession) :
  (forall a b,
     IsStringSlicesDifferent a b = utils.IsStringSlicesDifferent a b) ->
  (GetRequestedScopes ar = [] -> isConsentMissing ar userSession = false)
  /\ (GetRequestedScopes ar <> [] ->
      (isConsentMissing ar userSession = true <->
       Workflow userSession = None
       \/ exists workflow,
            Workflow userSession = Some workflow
            /\ ~ sameSet (GetRequestedScopes ar) (GrantedScopes workflow)))
  /\ (forall ar' workflow workflow',
        Workflow userSession = Some workflow ->
        Permutation (GetRequestedScopes ar) (GetRequestedScopes ar') ->
        Permutation (GrantedScopes workflow) (GrantedScopes workflow') ->
        isConsentMissing ar' (set_Workflow (Some workflow') userSession)
        = isConsentMissing ar userSession).
Proof.
  intros Hspec. unfold isConsentMissing. repeat split.
  - intros ->. reflexivity.
  - destruct (Workflow userSession) as [w|]; [|now left].
    rewrite Hspec, andb_true_iff. intros [_ HD]. right. exists w.
    split; [reflexivity | now apply IsStringSlicesDifferent_true].
  - destruct (GetRequestedScopes ar) as [|x l] eqn:E; [contradiction|].
    simpl. intros [->|(w & -> & HD)]; [reflexivity|].
    rewrite Hspec. now apply IsStringSlicesDifferent_true.
  - intros ar' w w' -> HP HG. simpl. rewrite !Hspec.
    rewrite (IsStringSlicesDifferent_Permutation HP HG).
    f_equal. rewrite (Permutation_length HP). reflexivity.
Qed.

(** C7.  When the client of the request is not registered the handler
    makes two calls, the parse and the protocol engine's error writer with
    the not-found error, and stops: the session is neither read nor
    written and the store is left as it was.  The lookup is a function: it
    returns a registered client with the given ID, or nothing when no
    registered client has it. *)
Theorem C7_unknown_client_no_session_access
    (r : http_Request) (post : bool) (store : UserSession)
    (ar : AuthorizeRequest) :
  NewAuthorizeRequest oauth2 r = (ar, None) ->
  (forall c, In c (Clients (Configuration_IdentityProviders_OIDC ctx)) ->
             ID c <> GetClient_GetID ar) ->
  trace (authorizeHandler oauth2 ctx r post store)
  = [EvNewAuthorizeRequest r;
     EvWriteAuthorizeError ar
       ("Unable to find related client configuration with name "
          ++ GetID ar)%string]
  /\ filter is_session_access (trace (authorizeHandler oauth2 ctx r post store))
     = []
  /\ stored (authorizeHandler oauth2 ctx r post store) = store
  /\ (forall clientID configuration,
        match getOIDCClientConfig clientID configuration with
        | Some c => In c (Clients configuration) /\ ID c = clientID
        | None => forall c, In c (Clients configuration) -> ID c <> clientID
        end).
Proof.
  intros HP HN.
  assert (HL : getOIDCClientConfig (GetClient_GetID ar)
                 (Configuration_IdentityProviders_OIDC ctx) = None)
    by (apply getOIDCClientConfig_loop_None; exact HN).
  rewrite (handler_client_not_found oauth2 ctx r post store ar HP HL).
  repeat split.
  intros clientID configuration.
  destruct (getOIDCClientConfig clientID configuration) as [c|] eqn:E.
  - now apply getOIDCClientConfig_loop_Some.
  - now apply getOIDCClientConfig_loop_None.
Qed.

(** C4.  When the pending branch is taken and the three fallible calls
    succeed, the last call of the invocation is a 302 redirect and no
    other answer is written before it.  Its target is the consent
    endpoint when consent is missing, whether or not authentication is
    sufficient as well, and the entry point with the [workflow=openid]
    marker otherwise. *)
Theorem C4_pending_redirect_target
    (r : http_Request) (store : UserSession) (ar : AuthorizeRequest) :
  admitted oauth2 ctx r ar ->
  pendingCondition ctx ar store = true ->
  snd (GetOriginalURL ctx) = None ->
  Providers_SessionProvider_SaveSession ctx (pendingSession ctx ar store)
  = None ->
  snd (ForwardedProtoHost ctx) = None ->
  (isConsentMissing ar store = true ->
   exists pre,
     trace (authorizeHandler oauth2 ctx r false store)
     = pre ++ [EvHttpRedirect
                 (fst (ForwardedProtoHost ctx) ++ "/consent")%string 302]
     /\ filter is_response pre = [])
  /\ (isConsentMissing ar store = false ->
      isAuthInsufficient store (requiredLevelOf ctx ar store) = true
      /\ exists pre,
           trace (authorizeHandler oauth2 ctx r false store)
           = pre ++ [EvHttpRedirect
                       (fst (ForwardedProtoHost ctx) ++ "?workflow=openid")%string
                       302]
           /\ filter is_response pre = []).
Proof.
  intros HA HC HO HS HF.
  rewrite (handler_pending oauth2 ctx r store ar HA HC). cbv zeta.
  rewrite pending_run. unfold pendingSession in HS. cbv zeta.
  rewrite HO, HS, HF. unfold trace, decisionCalls. simpl. split.
  - intros ->.
    exists [EvNewAuthorizeRequest r; EvGetSession;
            EvGetRequiredLevel (subjectOf ctx store)
              (NewObjectRaw (GetRedirectURI ar) "GET");
            EvGetOriginalURL (GetOriginalURL ctx);
            EvSaveSession (pendingSession ctx ar store) None;
            EvForwardedProtoHost (ForwardedProtoHost ctx)].
    split; reflexivity.
  - intros HM. unfold pendingCondition in HC. rewrite HM in *.
    rewrite orb_false_r in HC. split; [exact HC|].
    exists [EvNewAuthorizeRequest r; EvGetSession;
            EvGetRequiredLevel (subjectOf ctx store)
              (NewObjectRaw (GetRedirectURI ar) "GET");
            EvGetOriginalURL (GetOriginalURL ctx);
            EvSaveSession (pendingSession ctx ar store) None;
            EvForwardedProtoHost (ForwardedProtoHost ctx)].
    split; reflexivity.
Qed.

(** The proxy host and scheme are resolved after the save: when that
    resolution fails the invocation ends with a 500 answer while the store
    already holds the workflow installed at line 94. *)
Lemma pending_proxy_failure_follows_save
    (r : http_Request) (store : UserSession) (ar : AuthorizeRequest)
    (err : error) :
  admitted oauth2 ctx r ar ->
  pendingCondition ctx ar store = true ->
  snd (GetOriginalURL ctx) = None ->
  Providers_SessionProvider_SaveSession ctx (pendingSession ctx ar store)
  = None ->
  snd (ForwardedProtoHost ctx) = Some err ->
  authorizeHandler oauth2 ctx r false store
  = (tt, pendingSession ctx ar store,
     decisionCalls ctx r ar store
       ++ [EvGetOriginalURL (GetOriginalURL ctx);
           EvSaveSession (pendingSession ctx ar store) None;
           EvForwardedProtoHost (ForwardedProtoHost ctx);
           EvHttpError err 500]).
Proof.
  intros HA HC HO HS HF.
  rewrite (handler_pending oauth2 ctx r store ar HA HC). cbv zeta.
  rewrite pending_run. cbv zeta. fold (pendingSession ctx ar store).
  rewrite HO, HS, HF. reflexivity.
Qed.

(** C2, as the code has it.  In the pending branch, a failure of the
    forwarded-URI resolution, of the session save or of the proxy host and
    scheme resolution ends the invocation with a 500 answer, the only
    answer written, and no save is attempted after a call has come back
    with an error.  A save is attempted only once the session has been
    read, the required level obtained and the forwarded URI resolved, with
    the session record built from them and from the redirect target; the
    proxy host and scheme are resolved after the save, not before it.
    When the forwarded URI cannot be resolved no save is attempted at all.
    When the proxy host and scheme cannot be resolved the 500 answer is
    sent after the save has succeeded, and the store holds the new
    workflow. *)
Theorem C2_pending_errors_and_write_order
    (r : http_Request) (store : UserSession) (ar : AuthorizeRequest) :
  admitted oauth2 ctx r ar ->
  pendingCondition ctx ar store = true ->
  (snd (GetOriginalURL ctx) <> None
   \/ Providers_SessionProvider_SaveSession ctx (pendingSession ctx ar store)
      <> None
   \/ snd (ForwardedProtoHost ctx) <> None ->
   exists pre msg,
     trace (authorizeHandler oauth2 ctx r false store)
     = pre ++ [EvHttpError msg 500]
     /\ filter is_response pre = [])
  /\ (forall pre e post,
        trace (authorizeHandler oauth2 ctx r false store) = pre ++ e :: post ->
        is_infrastructure_error e = true ->
        filter is_save post = [])
  /\ (forall pre userSession err post,
        trace (authorizeHandler oauth2 ctx r false store)
        = pre ++ EvSaveSession userSession err :: post ->
        snd (GetOriginalURL ctx) = None
        /\ pre = decisionCalls ctx r ar store
                 ++ [EvGetOriginalURL (GetOriginalURL ctx)]
        /\ userSession = pendingSession ctx ar store)
  /\ (snd (GetOriginalURL ctx) <> None ->
      filter is_save (trace (authorizeHandler oauth2 ctx r false store)) = []
      /\ stored (authorizeHandler oauth2 ctx r false store) = store)
  /\ (forall err,
        snd (GetOriginalURL ctx) = None ->
        Providers_SessionProvider_SaveSession ctx
          (pendingSession ctx ar store) = None ->
        snd (ForwardedProtoHost ctx) = Some err ->
        trace (authorizeHandler oauth2 ctx r false store)
        = decisionCalls ctx r ar store
            ++ [EvGetOriginalURL (GetOriginalURL ctx);
                EvSaveSession (pendingSession ctx ar store) None;
                EvForwardedProtoHost (ForwardedProtoHost ctx);
                EvHttpError err 500]
        /\ stored (authorizeHandler oauth2 ctx r false store)
           = pendingSession ctx ar store).
Proof.
  intros HA HC.
  split; [|split; [|split; [|split]]].
  5:{ intros err HO HS HF.
      rewrite (pending_proxy_failure_follows_save r store ar err
                 HA HC HO HS HF).
      split; reflexivity. }
  all: rewrite (handler_pending oauth2 ctx r store ar HA HC); cbv zeta.
  all: rewrite pending_run; cbv zeta.
  all: fold (pendingSession ctx ar store).
  all: unfold trace, stored, decisionCalls.
  all: destruct (snd (GetOriginalURL ctx)) as [e1|] eqn:HO;
         [| destruct (Providers_SessionProvider_SaveSession ctx _)
              as [e2|] eqn:HS;
            [| destruct (snd (ForwardedProtoHost ctx)) as [e3|] eqn:HF]];
         simpl.
  - intros _. eexists [_; _; _; _], e1. split; reflexivity.
  - intros _. eexists [_; _; _; _; _], e2. split; reflexivity.
  - intros _. eexists [_; _; _; _; _; _], e3. split; reflexivity.
  - intros [H|[H|H]]; congruence.
  - intros pre e post H He. split_trace H; subst; after_error He.
  - intros pre e post H He. split_trace H; subst; after_error He.
  - intros pre e post H He. split_trace H; subst; after_error He.
  - intros pre e post H He. split_trace H; subst; after_error He.
  - intros pre s err post H. split_trace H.
  - intros pre s err post H. split_trace H.
    injection Hev as -> ->. subst. auto.
  - intros pre s err post H. split_trace H.
    injection Hev as -> ->. subst. auto.
  - intros pre s err post H. split_trace H.
    injection Hev as -> ->. subst. auto.
  - intros _. split; reflexivity.
  - congruence.
  - congruence.
  - congruence.
Qed.

(** C5.  In the finalize branch the request object handed to the
    response builder has every requested scope and every requested
    audience granted.  When the save succeeds the trace holds exactly one
    save, of the session with its workflow set to nil, immediately
    followed by the call to the builder, and the store then holds no
    workflow.  When the save fails the invocation ends with a 500 answer,
    the only answer written, and the builder is never called. *)
Theorem C5_finalize_grants_and_persists_once
    (r : http_Request) (post : bool) (store : UserSession)
    (ar : AuthorizeRequest) :
  finalizes oauth2 ctx r ar post store ->
  (forall scope, In scope (GetRequestedScopes ar) ->
                 In scope (GetGrantedScopes (grantAll ar)))
  /\ (forall a, In a (GetRequestedAudience ar) ->
                In a (GetGrantedAudience (grantAll ar)))
  /\ (Providers_SessionProvider_SaveSession ctx (set_Workflow None store)
      = None ->
      (exists pre oauthSession post_,
         trace (authorizeHandler oauth2 ctx r post store)
         = pre ++ EvSaveSession (set_Workflow None store) None
               :: EvNewAuthorizeResponse (grantAll ar) oauthSession :: post_
         /\ filter is_save pre = [] /\ filter is_build pre = []
         /\ filter is_save post_ = [] /\ filter is_build post_ = [])
      /\ Workflow (stored (authorizeHandler oauth2 ctx r post store)) = None)
  /\ (forall err,
        Providers_SessionProvider_SaveSession ctx (set_Workflow None store)
        = Some err ->
        filter is_build (trace (authorizeHandler oauth2 ctx r post store)) = []
        /\ exists pre,
             trace (authorizeHandler oauth2 ctx r post store)
             = pre ++ [EvHttpError err 500]
             /\ filter is_response pre = []).
Proof.
  intros HF.
  split; [|split; [|split]].
  - intros scope HIn. apply (grantAll_granted ar scope). now right.
  - intros a HIn. apply (grantAll_granted ar a). now right.
  - intros HV. rewrite (handler_finalize oauth2 ctx r post store ar HF).
    rewrite finalize_run. cbv zeta. rewrite HV. unfold trace, stored. simpl.
    split; [|reflexivity].
    exists (openingCalls ctx r ar store post ++ [EvGetSession]).
    eexists. eexists. split.
    + rewrite <- app_assoc. simpl. reflexivity.
    + unfold openingCalls, decisionCalls.
      destruct post; simpl;
        destruct (snd (NewAuthorizeResponse oauth2 _ _)); simpl; auto.
  - intros err HV. rewrite (handler_finalize oauth2 ctx r post store ar HF).
    rewrite finalize_run. cbv zeta. rewrite HV. unfold trace. simpl. split.
    + unfold openingCalls, decisionCalls. destruct post; reflexivity.
    + exists (openingCalls ctx r ar store post
                ++ [EvGetSession;
                    EvSaveSession (set_Workflow None store) (Some err)]).
      split.
      * rewrite <- app_assoc. reflexivity.
      * unfold openingCalls, decisionCalls. destruct post; reflexivity.
Qed.

(** C10.  In the finalize branch, whenever the response builder is
    called, a successful save of the session with its workflow set to nil
    comes earlier in the trace and no save comes later, so the store holds
    no workflow when the invocation ends.  This covers the case where the
    builder fails: the invocation then ends with the protocol engine's
    error writer and the store still holds no workflow. *)
Theorem C10_workflow_cleared_before_response
    (r : http_Request) (post : bool) (store : UserSession)
    (ar : AuthorizeRequest) :
  finalizes oauth2 ctx r ar post store ->
  forall pre ar' oauthSession post_,
    trace (authorizeHandler oauth2 ctx r post store)
    = pre ++ EvNewAuthorizeResponse ar' oauthSession :: post_ ->
    (exists userSession,
       In (EvSaveSession userSession None) pre
       /\ Workflow userSession = None)
    /\ filter is_save post_ = []
    /\ Workflow (stored (authorizeHandler oauth2 ctx r post store)) = None
    /\ (forall err,
          snd (NewAuthorizeResponse oauth2 ar' oauthSession) = Some err ->
          post_ = [EvWriteAuthorizeError ar' err]).
Proof.
  intros HF pre ar' oauthSession post_.
  rewrite (handler_finalize oauth2 ctx r post store ar HF).
  rewrite finalize_run. cbv zeta. unfold trace, stored.
  destruct (Providers_SessionProvider_SaveSession ctx _) as [e|] eqn:HV.
  - unfold openingCalls, decisionCalls. destruct post; simpl; intros H;
      split_trace H.
  - destruct (snd (NewAuthorizeResponse oauth2 (grantAll ar)
                     (newSession ctx (set_Workflow None store)
                        (GetRequestedScopes ar) (GetRequestedAudience ar))))
      as [e|] eqn:HB;
      unfold openingCalls, decisionCalls; destruct post; simpl; intros H;
      split_trace H; injection Hev as -> ->; subst.
    all: split; [|split; [|split]].
    all: try reflexivity.
    all: try (exists (set_Workflow None store); split;
              [simpl; tauto | reflexivity]).
    all: intros err HE; rewrite HB in HE; congruence.
Qed.


Lemma set_Workflow_None_id (store : UserSession) :
  Workflow store = None -> set_Workflow None store = store.
Proof.
  destruct store as [u g l w]. simpl. intros ->. reflexivity.
Qed.

(** One browser-navigation invocation on a session that is already
    satisfied and holds no workflow. *)
Lemma satisfied_invocation
    (r : http_Request) (store : UserSession) (ar : AuthorizeRequest) :
  admitted oauth2 ctx r ar ->
  Workflow store = None ->
  IsAuthLevelSufficient (AuthenticationLevel store)
    (requiredLevelOf ctx ar store) = true ->
  isConsentMissing ar store = false ->
  trace (AuthorizeEndpointGet oauth2 ctx r store)
  = decisionCalls ctx r ar store
      ++ trace (authorizeHandler_finalize oauth2 ctx ar store)
  /\ filter installs_workflow (trace (AuthorizeEndpointGet oauth2 ctx r store))
     = []
  /\ filter is_redirect (trace (AuthorizeEndpointGet oauth2 ctx r store)) = []
  /\ stored (AuthorizeEndpointGet oauth2 ctx r store) = store.
Proof.
  intros HA HW HL HM. unfold AuthorizeEndpointGet.
  assert (HC : pendingCondition ctx ar store = false).
  { unfold pendingCondition, isAuthInsufficient. now rewrite HL, HM. }
  rewrite (handler_satisfied oauth2 ctx r store ar HA HC).
  rewrite finalize_run. cbv zeta. unfold trace, stored, decisionCalls.
  rewrite (set_Workflow_None_id store HW).
  destruct (Providers_SessionProvider_SaveSession ctx store); simpl.
  - rewrite HW. repeat split.
  - rewrite HW.
    destruct (snd (NewAuthorizeResponse oauth2 _ _)); repeat split.
Qed.

(** C8.  Two browser-navigation invocations in a row, starting from a
    session that holds no workflow, whose authentication level is
    sufficient and for which consent is not missing: each goes from the
    decision calls straight to the finalize branch, saves no session that
    carries a workflow, issues no redirect, and leaves the store without a
    workflow. *)
Theorem C8_satisfied_twice_never_recreates_workflow
    (r : http_Request) (store : UserSession) (ar : AuthorizeRequest) :
  admitted oauth2 ctx r ar ->
  Workflow store = None ->
  IsAuthLevelSufficient (AuthenticationLevel store)
    (requiredLevelOf ctx ar store) = true ->
  isConsentMissing ar store = false ->
  let first := AuthorizeEndpointGet oauth2 ctx r store in
  let second := AuthorizeEndpointGet oauth2 ctx r (stored first) in
  (trace first
   = decisionCalls ctx r ar store
       ++ trace (authorizeHandler_finalize oauth2 ctx ar store)
   /\ filter installs_workflow (trace first) = []
   /\ filter is_redirect (trace first) = []
   /\ Workflow (stored first) = None)
  /\ (trace second
      = decisionCalls ctx r ar (stored first)
          ++ trace (authorizeHandler_finalize oauth2 ctx ar (stored first))
      /\ filter installs_workflow (trace second) = []
      /\ filter is_redirect (trace second) = []
      /\ Workflow (stored second) = None).
Proof.
  intros HA HW HL HM first second.
  destruct (satisfied_invocation r store ar HA HW HL HM)
    as (T1 & I1 & R1 & S1).
  fold first in T1, I1, R1, S1.
  unfold second. rewrite S1. fold first. rewrite S1.
  repeat split; assumption.
Qed.

(** Every save the handler attempts carries either no workflow or a
    workflow without granted scopes. *)
Lemma saves_carry_no_grant (r : http_Request) (post : bool)
    (store userSession : UserSession) (err : option error)
    (workflow : OIDCWorkflowSession) :
  In (EvSaveSession userSession err)
    (trace (authorizeHandler oauth2 ctx r post store)) ->
  Workflow userSession = Some workflow ->
  GrantedScopes workflow = [].
Proof.
  destruct (handler_paths oauth2 ctx r post store)
    as [[e ->] | [(HA & -> & HC) | HF]].
  - simpl. intros [H|[H|[]]]; discriminate.
  - rewrite (handler_pending oauth2 ctx r store _ HA HC). cbv zeta.
    rewrite pending_run. cbv zeta. unfold trace, decisionCalls.
    destruct (snd (GetOriginalURL ctx));
      [| destruct (Providers_SessionProvider_SaveSession ctx _);
         [| destruct (snd (ForwardedProtoHost ctx))]];
      simpl; intros H HW;
      repeat (destruct H as [H|H]; try discriminate H);
      try contradiction;
      injection H as <- _; simpl in HW; injection HW as <-; reflexivity.
  - rewrite (handler_finalize oauth2 ctx r post store _ HF).
    rewrite finalize_run. cbv zeta. unfold trace, openingCalls, decisionCalls.
    destruct (Providers_SessionProvider_SaveSession ctx _); destruct post;
      simpl; intros H HW;
      repeat (destruct H as [H|H]; try discriminate H);
      try contradiction;
      try (injection H as <- _; simpl in HW; discriminate HW).
    all: destruct (snd (NewAuthorizeResponse oauth2 _ _)); discriminate H.
Qed.

(** C9.  Any session the handler saves carries no workflow or a workflow
    whose [GrantedScopes] is empty.  When the pending branch installs a
    workflow, the store holds exactly the five assigned fields and an
    empty [GrantedScopes]; provided the slice comparison tells a non-empty
    list from the empty one, every later browser-navigation invocation
    that requests at least one scope finds consent missing on that
    session, takes the pending branch and never calls the response
    builder. *)
Theorem C9_installed_workflow_grants_nothing
    (r : http_Request) (store : UserSession) (ar : AuthorizeRequest) :
  (forall r' post' store' userSession err workflow,
     In (EvSaveSession userSession err)
       (trace (authorizeHandler oauth2 ctx r' post' store')) ->
     Workflow userSession = Some workflow ->
     GrantedScopes workflow = [])
  /\ (admitted oauth2 ctx r ar ->
      pendingCondition ctx ar store = true ->
      snd (GetOriginalURL ctx) = None ->
      Providers_SessionProvider_SaveSession ctx (pendingSession ctx ar store)
      = None ->
      Workflow (stored (AuthorizeEndpointGet oauth2 ctx r store))
      = Some {| ClientID := GetClient_GetID ar;
                RequestedScopes := GetRequestedScopes ar;
                GrantedScopes := [];
                AuthURI := URL_String (fst (GetOriginalURL ctx));
                TargetURI := URL_String (GetRedirectURI ar);
                RequiredAuthorizationLevel := requiredLevelOf ctx ar store |}
      /\ ((forall x l, IsStringSlicesDifferent (x :: l) [] = true) ->
          forall (oauth2' : OAuth2Provider OAuthSession AuthorizeResponder)
                 ctx' r' ar',
            admitted oauth2' ctx' r' ar' ->
            GetRequestedScopes ar' <> [] ->
            isConsentMissing ar'
              (stored (AuthorizeEndpointGet oauth2 ctx r store)) = true
            /\ pendingCondition ctx' ar'
                 (stored (AuthorizeEndpointGet oauth2 ctx r store)) = true
            /\ filter is_build
                 (trace (AuthorizeEndpointGet oauth2' ctx' r'
                           (stored (AuthorizeEndpointGet oauth2 ctx r store))))
               = [])).
Proof.
  split.
  { intros r' post' store' s err w. apply saves_carry_no_grant. }
  intros HA HC HO HV. unfold AuthorizeEndpointGet.
  rewrite (handler_pending oauth2 ctx r store ar HA HC). cbv zeta.
  rewrite pending_run. cbv zeta. fold (pendingSession ctx ar store).
  rewrite HO, HV. unfold stored.
  destruct (snd (ForwardedProtoHost ctx)); simpl.
  all: split; [reflexivity|].
  all: intros HD oauth2' ctx' r' ar' HA' HN.
  all: assert (HM : isConsentMissing ar' (pendingSession ctx ar store) = true)
         by (unfold isConsentMissing; simpl;
             destruct (GetRequestedScopes ar') as [|x l];
             [contradiction | simpl; apply HD]).
  all: assert (HC' : pendingCondition ctx' ar' (pendingSession ctx ar store)
                     = true)
         by (unfold pendingCondition; rewrite HM; apply orb_true_r).
  all: split; [exact HM | split; [exact HC'|]].
  all: rewrite (handler_pending oauth2' ctx' r' _ ar' HA' HC'); cbv zeta.
  all: rewrite pending_run; cbv zeta; unfold trace, decisionCalls.
  all: destruct (snd (GetOriginalURL ctx'));
         [| destruct (Providers_SessionProvider_SaveSession ctx' _);
            [| destruct (snd (ForwardedProtoHost ctx'))]];
         reflexivity.
Qed.

(** C1, as the code has it.  The consent decision reads the granted
    scopes of the stored workflow and never its [ClientID]: a session
    whose workflow was left by any other client yields the same decision
    and the same calls as the session with that workflow under the
    current client, and its granted scopes satisfy the check as soon as
    the slice comparison finds them no different from the requested
    scopes. *)
Theorem C1_consent_decision_ignores_client
    (r : http_Request) (store : UserSession)
    (workflow : OIDCWorkflowSession) (clientID : string) :
  Workflow store = Some workflow ->
  let other := set_Workflow (Some (withClientID clientID workflow)) store in
  (forall ar, isConsentMissing ar other = isConsentMissing ar store)
  /\ trace (AuthorizeEndpointGet oauth2 ctx r other)
     = trace (AuthorizeEndpointGet oauth2 ctx r store)
  /\ (forall ar,
        IsStringSlicesDifferent (GetRequestedScopes ar)
          (GrantedScopes workflow) = false ->
        isConsentMissing ar other = false).
Proof.
  intros HW other.
  assert (HM : forall ar, isConsentMissing ar other = isConsentMissing ar store).
  { intros ar. unfold isConsentMissing. rewrite HW. reflexivity. }
  split; [exact HM | split].
  - unfold AuthorizeEndpointGet.
    destruct (NewAuthorizeRequest oauth2 r) as [ar [e|]] eqn:HP.
    { now rewrite !(handler_parse_error oauth2 ctx r false _ ar e HP). }
    destruct (getOIDCClientConfig (GetClient_GetID ar)
                (Configuration_IdentityProviders_OIDC ctx)) as [c|] eqn:HL.
    2:{ now rewrite !(handler_client_not_found oauth2 ctx r false _ ar HP HL). }
    assert (HA : admitted oauth2 ctx r ar) by (split; congruence).
    assert (HE : pendingCondition ctx ar other = pendingCondition ctx ar store).
    { unfold pendingCondition. rewrite HM. reflexivity. }
    destruct (pendingCondition ctx ar store) eqn:HC.
    + rewrite (handler_pending oauth2 ctx r other ar HA HE).
      rewrite (handler_pending oauth2 ctx r store ar HA HC). cbv zeta.
      rewrite !pending_run. cbv zeta. rewrite HM. unfold trace.
      change (set_Workflow
                (Some (beginWorkflow (GetClient_GetID ar) ar
                         (fst (GetOriginalURL ctx)) (GetRedirectURI ar)
                         (requiredLevelOf ctx ar other))) other)
        with (pendingSession ctx ar store).
      fold (pendingSession ctx ar store).
      destruct (snd (GetOriginalURL ctx));
        [| destruct (Providers_SessionProvider_SaveSession ctx _);
           [| destruct (snd (ForwardedProtoHost ctx))]];
        reflexivity.
    + rewrite (handler_satisfied oauth2 ctx r other ar HA HE).
      rewrite (handler_satisfied oauth2 ctx r store ar HA HC).
      rewrite !finalize_run. cbv zeta. unfold trace.
      change (set_Workflow None other) with (set_Workflow None store).
      destruct (Providers_SessionProvider_SaveSession ctx _); reflexivity.
  - intros ar HD. unfold isConsentMissing. simpl. rewrite HD.
    apply andb_false_r.
Qed.

End Claims.

(** ** The claims on the concrete deployment *)

(** A workflow left by client [app] with [openid] granted lets a request
    of client [wiki] for [openid] through: consent is not found missing
    and the answer is the protocol engine's response, whereas the same
    request on a session without workflow is sent to the consent
    endpoint. *)
Lemma C1_foreign_workflow_satisfies_consent :
  ClientID (Scenario.consented "app" ["openid"])
  <> GetClient_GetID (Scenario.authorizeRequest "wiki" ["openid"])
  /\ isConsentMissing (helpers := Scenario.helpers)
       (Scenario.authorizeRequest "wiki" ["openid"])
       (Scenario.john TwoFactor (Some (Scenario.consented "app" ["openid"])))
     = false
  /\ isConsentMissing (helpers := Scenario.helpers)
       (Scenario.authorizeRequest "wiki" ["openid"])
       (Scenario.john TwoFactor None)
     = true
  /\ filter is_response
       (trace (AuthorizeEndpointGet
                 (Scenario.provider
                    (Scenario.authorizeRequest "wiki" ["openid"]) None None)
                 (Scenario.context OneFactor Scenario.originalURL
                    Scenario.protoHost None)
                 Scenario.request
                 (Scenario.john TwoFactor
                    (Some (Scenario.consented "app" ["openid"])))))
     = [EvWriteAuthorizeResponse
          (grantAll (Scenario.authorizeRequest "wiki" ["openid"])) "code=abc"]
  /\ filter is_response
       (trace (AuthorizeEndpointGet
                 (Scenario.provider
                    (Scenario.authorizeRequest "wiki" ["openid"]) None None)
                 (Scenario.context OneFactor Scenario.originalURL
                    Scenario.protoHost None)
                 Scenario.request
                 (Scenario.john TwoFactor None)))
     = [EvHttpRedirect "https://auth.example.com/consent" 302].
Proof.
  split; [discriminate|]. repeat split; reflexivity.
Qed.

Lemma C1_witness :
  Workflow (Scenario.john TwoFactor (Some (Scenario.consented "app" ["openid"])))
  = Some (Scenario.consented "app" ["openid"])
  /\ trace (AuthorizeEndpointGet
              (Scenario.provider
                 (Scenario.authorizeRequest "wiki" ["openid"]) None None)
              (Scenario.context OneFactor Scenario.originalURL
                 Scenario.protoHost None)
              Scenario.request
              (set_Workflow
                 (Some (withClientID "wiki"
                          (Scenario.consented "app" ["openid"])))
                 (Scenario.john TwoFactor
                    (Some (Scenario.consented "app" ["openid"])))))
     = trace (AuthorizeEndpointGet
                (Scenario.provider
                   (Scenario.authorizeRequest "wiki" ["openid"]) None None)
                (Scenario.context OneFactor Scenario.originalURL
                   Scenario.protoHost None)
                Scenario.request
                (Scenario.john TwoFactor
                   (Some (Scenario.consented "app" ["openid"])))).
Proof.
  split; [reflexivity|].
  destruct (C1_consent_decision_ignores_client (helpers := Scenario.helpers)
              (Scenario.provider
                 (Scenario.authorizeRequest "wiki" ["openid"]) None None)
              (Scenario.context OneFactor Scenario.originalURL
                 Scenario.protoHost None)
              Scenario.request
              (Scenario.john TwoFactor
                 (Some (Scenario.consented "app" ["openid"])))
              (Scenario.consented "app" ["openid"]) "wiki" eq_refl)
    as (_ & H & _).
  exact H.
Defined.

(** Client [app] asks for [openid] on a one-factor session that holds a
    granted workflow while two factors are required, and the proxy scheme
    header is missing.  The forwarded URI resolves and the session is
    saved; only then does the proxy host and scheme resolution fail.  The
    answer is a 500, yet a save has been made without that resolution
    ever succeeding, and the store no longer holds the session it held:
    the granted workflow is replaced by one without granted scopes. *)
Lemma C2_save_precedes_proxy_resolution :
  snd (ForwardedProtoHost
         (Scenario.context TwoFactor Scenario.originalURL
            ("", Some "missing header X-Forwarded-Proto") None))
  = Some "missing header X-Forwarded-Proto"
  /\ filter is_response
       (trace (AuthorizeEndpointGet
                 (Scenario.provider
                    (Scenario.authorizeRequest "app" ["openid"]) None None)
                 (Scenario.context TwoFactor Scenario.originalURL
                    ("", Some "missing header X-Forwarded-Proto") None)
                 Scenario.request
                 (Scenario.john OneFactor
                    (Some (Scenario.consented "app" ["openid"])))))
     = [EvHttpError "missing header X-Forwarded-Proto" 500]
  /\ filter is_save
       (trace (AuthorizeEndpointGet
                 (Scenario.provider
                    (Scenario.authorizeRequest "app" ["openid"]) None None)
                 (Scenario.context TwoFactor Scenario.originalURL
                    ("", Some "missing header X-Forwarded-Proto") None)
                 Scenario.request
                 (Scenario.john OneFactor
                    (Some (Scenario.consented "app" ["openid"])))))
     = [EvSaveSession
          (Scenario.john OneFactor
             (Some {| ClientID := "app";
                      RequestedScopes := ["openid"];
                      GrantedScopes := [];
                      AuthURI := "https://auth.example.com/api/oidc/authorize";
                      TargetURI := "https://app.example.com/callback";
                      RequiredAuthorizationLevel := TwoFactor |}))
          None]
  /\ stored
       (AuthorizeEndpointGet
          (Scenario.provider
             (Scenario.authorizeRequest "app" ["openid"]) None None)
          (Scenario.context TwoFactor Scenario.originalURL
             ("", Some "missing header X-Forwarded-Proto") None)
          Scenario.request
          (Scenario.john OneFactor
             (Some (Scenario.consented "app" ["openid"]))))
     <> Scenario.john OneFactor (Some (Scenario.consented "app" ["openid"])).
Proof.
  split; [reflexivity | split; [reflexivity | split; [reflexivity|]]].
  discriminate.
Qed.

Lemma C2_witness :
  admitted
    (Scenario.provider (Scenario.authorizeRequest "app" ["openid"]) None None)
    (Scenario.context TwoFactor Scenario.originalURL
       ("", Some "missing header X-Forwarded-Proto") None)
    Scenario.request (Scenario.authorizeRequest "app" ["openid"])
  /\ pendingCondition
       (Scenario.context TwoFactor Scenario.originalURL
          ("", Some "missing header X-Forwarded-Proto") None)
       (Scenario.authorizeRequest "app" ["openid"])
       (Scenario.john NotAuthenticated None) = true
  /\ exists pre msg,
       trace (authorizeHandler
                (Scenario.provider
                   (Scenario.authorizeRequest "app" ["openid"]) None None)
                (Scenario.context TwoFactor Scenario.originalURL
                   ("", Some "missing header X-Forwarded-Proto") None)
                Scenario.request false (Scenario.john NotAuthenticated None))
       = pre ++ [EvHttpError msg 500]
       /\ filter is_response pre = [].
Proof.
  assert (HA : admitted
                 (Scenario.provider
                    (Scenario.authorizeRequest "app" ["openid"]) None None)
                 (Scenario.context TwoFactor Scenario.originalURL
                    ("", Some "missing header X-Forwarded-Proto") None)
                 Scenario.request (Scenario.authorizeRequest "app" ["openid"]))
    by (split; [reflexivity | discriminate]).
  split; [exact HA | split; [reflexivity|]].
  destruct (C2_pending_errors_and_write_order (helpers := Scenario.helpers)
              _ _ _ (Scenario.john NotAuthenticated None) _ HA eq_refl)
    as (H & _).
  apply H. right. right. discriminate.
Defined.

Lemma C3_witness :
  (forall a b,
     IsStringSlicesDifferent (Helpers := Scenario.helpers) a b
     = utils.IsStringSlicesDifferent a b)
  /\ isConsentMissing (helpers := Scenario.helpers)
       (Scenario.authorizeRequest "app" ["profile"; "openid"])
       (set_Workflow
          (Some (Scenario.consented "app" ["openid"; "profile"]))
          (Scenario.john TwoFactor
             (Some (Scenario.consented "app" ["openid"; "profile"]))))
     = isConsentMissing (helpers := Scenario.helpers)
         (Scenario.authorizeRequest "app" ["openid"; "profile"])
         (Scenario.john TwoFactor
            (Some (Scenario.consented "app" ["openid"; "profile"]))).
Proof.
  split; [reflexivity|].
  destruct (C3_consent_missing_decision (helpers := Scenario.helpers)
              (Scenario.authorizeRequest "app" ["openid"; "profile"])
              (Scenario.john TwoFactor
                 (Some (Scenario.consented "app" ["openid"; "profile"])))
              (fun a b => eq_refl)) as (_ & _ & H).
  apply (H _ (Scenario.consented "app" ["openid"; "profile"])).
  - reflexivity.
  - apply perm_swap.
  - apply Permutation_refl.
Defined.

Lemma C4_witness :
  admitted
    (Scenario.provider
       (Scenario.authorizeRequest "app" ["openid"; "profile"]) None None)
    (Scenario.context TwoFactor Scenario.originalURL Scenario.protoHost None)
    Scenario.request (Scenario.authorizeRequest "app" ["openid"; "profile"])
  /\ isAuthInsufficient (helpers := Scenario.helpers)
       (Scenario.john NotAuthenticated None) TwoFactor = true
  /\ exists pre,
       trace (authorizeHandler
                (Scenario.provider
                   (Scenario.authorizeRequest "app" ["openid"; "profile"])
                   None None)
                (Scenario.context TwoFactor Scenario.originalURL
                   Scenario.protoHost None)
                Scenario.request false (Scenario.john NotAuthenticated None))
       = pre ++ [EvHttpRedirect "https://auth.example.com/consent" 302]
       /\ filter is_response pre = [].
Proof.
  assert (HA : admitted
                 (Scenario.provider
                    (Scenario.authorizeRequest "app" ["openid"; "profile"])
                    None None)
                 (Scenario.context TwoFactor Scenario.originalURL
                    Scenario.protoHost None)
                 Scenario.request
                 (Scenario.authorizeRequest "app" ["openid"; "profile"]))
    by (split; [reflexivity | discriminate]).
  split; [exact HA | split; [reflexivity|]].
  destruct (C4_pending_redirect_target (helpers := Scenario.helpers)
              _ _ _ (Scenario.john NotAuthenticated None) _
              HA eq_refl eq_refl eq_refl eq_refl) as (H & _).
  apply H. reflexivity.
Defined.

Lemma C5_witness :
  finalizes
    (Scenario.provider
       (Scenario.authorizeRequest "app" ["openid"; "email"]) None None)
    (Scenario.context TwoFactor Scenario.originalURL Scenario.protoHost None)
    Scenario.request (Scenario.authorizeRequest "app" ["openid"; "email"])
    false
    (Scenario.john TwoFactor
       (Some (Scenario.consented "app" ["openid"; "email"])))
  /\ Workflow
       (stored
          (authorizeHandler
             (Scenario.provider
                (Scenario.authorizeRequest "app" ["openid"; "email"])
                None None)
             (Scenario.context TwoFactor Scenario.originalURL
                Scenario.protoHost None)
             Scenario.request false
             (Scenario.john TwoFactor
                (Some (Scenario.consented "app" ["openid"; "email"])))))
     = None.
Proof.
  assert (HF : finalizes
                 (Scenario.provider
                    (Scenario.authorizeRequest "app" ["openid"; "email"])
                    None None)
                 (Scenario.context TwoFactor Scenario.originalURL
                    Scenario.protoHost None)
                 Scenario.request
                 (Scenario.authorizeRequest "app" ["openid"; "email"])
                 false
                 (Scenario.john TwoFactor
                    (Some (Scenario.consented "app" ["openid"; "email"]))))
    by (split; [split; [reflexivity | discriminate] | right; reflexivity]).
  split; [exact HF|].
  destruct (C5_finalize_grants_and_persists_once
              (helpers := Scenario.helpers) _ _ _ _ _ _ HF)
    as (_ & _ & H & _).
  apply H. reflexivity.
Defined.


Lemma C7_witness :
  NewAuthorizeRequest
    (Scenario.provider (Scenario.authorizeRequest "ghost" ["openid"]) None None)
    Scenario.request
  = (Scenario.authorizeRequest "ghost" ["openid"], None)
  /\ (forall c, In c (Clients Scenario.registry) -> ID c <> "ghost")
  /\ filter is_session_access
       (trace (authorizeHandler
                 (Scenario.provider
                    (Scenario.authorizeRequest "ghost" ["openid"]) None None)
                 (Scenario.context OneFactor Scenario.originalURL
                    Scenario.protoHost None)
                 Scenario.request false
                 (Scenario.john TwoFactor None)))
     = [].
Proof.
  assert (HN : forall c, In c (Clients Scenario.registry) -> ID c <> "ghost")
    by (intros c [<-|[<-|[]]]; discriminate).
  split; [reflexivity | split; [exact HN|]].
  destruct (C7_unknown_client_no_session_access
              (helpers := Scenario.helpers)
              (Scenario.provider
                 (Scenario.authorizeRequest "ghost" ["openid"]) None None)
              (Scenario.context OneFactor Scenario.originalURL
                 Scenario.protoHost None)
              Scenario.request false (Scenario.john TwoFactor None)
              (Scenario.authorizeRequest "ghost" ["openid"]) eq_refl HN)
    as (_ & H & _).
  exact H.
Defined.

Lemma C8_witness :
  admitted
    (Scenario.provider (Scenario.authorizeRequest "app" []) None None)
    (Scenario.context OneFactor Scenario.originalURL Scenario.protoHost None)
    Scenario.request (Scenario.authorizeRequest "app" [])
  /\ Workflow
       (stored
          (AuthorizeEndpointGet
             (Scenario.provider (Scenario.authorizeRequest "app" []) None None)
             (Scenario.context OneFactor Scenario.originalURL
                Scenario.protoHost None)
             Scenario.request
             (stored
                (AuthorizeEndpointGet
                   (Scenario.provider
                      (Scenario.authorizeRequest "app" []) None None)
                   (Scenario.context OneFactor Scenario.originalURL
                      Scenario.protoHost None)
                   Scenario.request (Scenario.john TwoFactor None)))))
     = None.
Proof.
  assert (HA : admitted
                 (Scenario.provider
                    (Scenario.authorizeRequest "app" []) None None)
                 (Scenario.context OneFactor Scenario.originalURL
                    Scenario.protoHost None)
                 Scenario.request (Scenario.authorizeRequest "app" []))
    by (split; [reflexivity | discriminate]).
  split; [exact HA|].
  destruct (C8_satisfied_twice_never_recreates_workflow
              (helpers := Scenario.helpers) _ _ _
              (Scenario.john TwoFactor None) _ HA eq_refl eq_refl eq_refl)
    as (_ & _ & _ & _ & H).
  exact H.
Defined.

Lemma C9_witness :
  admitted
    (Scenario.provider (Scenario.authorizeRequest "app" ["openid"]) None None)
    (Scenario.context OneFactor Scenario.originalURL Scenario.protoHost None)
    Scenario.request (Scenario.authorizeRequest "app" ["openid"])
  /\ (forall x l, utils.IsStringSlicesDifferent (x :: l) [] = true)
  /\ GetRequestedScopes (Scenario.authorizeRequest "app" ["openid"]) <> []
  /\ filter is_build
       (trace
          (AuthorizeEndpointGet
             (Scenario.provider
                (Scenario.authorizeRequest "app" ["openid"]) None None)
             (Scenario.context OneFactor Scenario.originalURL
                Scenario.protoHost None)
             Scenario.request
             (stored
                (AuthorizeEndpointGet
                   (Scenario.provider
                      (Scenario.authorizeRequest "app" ["openid"]) None None)
                   (Scenario.context OneFactor Scenario.originalURL
                      Scenario.protoHost None)
                   Scenario.request (Scenario.john TwoFactor None)))))
     = [].
Proof.
  assert (HA : admitted
                 (Scenario.provider
                    (Scenario.authorizeRequest "app" ["openid"]) None None)
                 (Scenario.context OneFactor Scenario.originalURL
                    Scenario.protoHost None)
                 Scenario.request (Scenario.authorizeRequest "app" ["openid"]))
    by (split; [reflexivity | discriminate]).
  assert (HD : forall x l, utils.IsStringSlicesDifferent (x :: l) [] = true)
    by (intros x l; reflexivity).
  assert (HN : GetRequestedScopes (Scenario.authorizeRequest "app" ["openid"])
               <> [])
    by discriminate.
  split; [exact HA | split; [exact HD | split; [exact HN|]]].
  destruct (C9_installed_workflow_grants_nothing
              (helpers := Scenario.helpers)
              (Scenario.provider
                 (Scenario.authorizeRequest "app" ["openid"]) None None)
              (Scenario.context OneFactor Scenario.originalURL
                 Scenario.protoHost None)
              Scenario.request (Scenario.john TwoFactor None)
              (Scenario.authorizeRequest "app" ["openid"]))
    as (_ & H).
  destruct (H HA eq_refl eq_refl eq_refl) as (_ & H').
  exact (proj2 (proj2 (H' HD _ _ _ _ HA HN))).
Defined.

Lemma C10_witness :
  finalizes
    (Scenario.provider (Scenario.authorizeRequest "app" [])
       None (Some "server_error"))
    (Scenario.context OneFactor Scenario.originalURL Scenario.protoHost None)
    Scenario.request (Scenario.authorizeRequest "app" []) true
    (Scenario.john OneFactor (Some (Scenario.consented "app" ["openid"])))
  /\ filter is_response
       (trace (authorizeHandler
                 (Scenario.provider (Scenario.authorizeRequest "app" [])
                    None (Some "server_error"))
                 (Scenario.context OneFactor Scenario.originalURL
                    Scenario.protoHost None)
                 Scenario.request true
                 (Scenario.john OneFactor
                    (Some (Scenario.consented "app" ["openid"])))))
     = [EvWriteAuthorizeError (grantAll (Scenario.authorizeRequest "app" []))
          "server_error"]
  /\ Workflow
       (stored (authorizeHandler
                  (Scenario.provider (Scenario.authorizeRequest "app" [])
                     None (Some "server_error"))
                  (Scenario.context OneFactor Scenario.originalURL
                     Scenario.protoHost None)
                  Scenario.request true
                  (Scenario.john OneFactor
                     (Some (Scenario.consented "app" ["openid"])))))
     = None.
Proof.
  assert (HF : finalizes
                 (Scenario.provider (Scenario.authorizeRequest "app" [])
                    None (Some "server_error"))
                 (Scenario.context OneFactor Scenario.originalURL
                    Scenario.protoHost None)
                 Scenario.request (Scenario.authorizeRequest "app" []) true
                 (Scenario.john OneFactor
                    (Some (Scenario.consented "app" ["openid"]))))
    by (split; [split; [reflexivity | discriminate] | left; reflexivity]).
  split; [exact HF | split; [reflexivity|]].
  destruct (C10_workflow_cleared_before_response
              (helpers := Scenario.helpers) _ _ _ _ _ _ HF
              [EvNewAuthorizeRequest Scenario.request;
               EvGetSession;
               EvSaveSession (Scenario.john OneFactor None) None]
              (grantAll (Scenario.authorizeRequest "app" []))
              {| Scenario.session_Subject := "john";
                 Scenario.session_Scopes := [];
                 Scenario.session_Audience := ["https://app.example.com"] |}
              [EvWriteAuthorizeError
                 (grantAll (Scenario.authorizeRequest "app" []))
                 "server_error"]
              eq_refl)
    as (_ & _ & H & _).
  exact H.
Defined.

(** * Further properties of the handler and of the lookup *)

(** Runs the handler symbolically: one goal per way an invocation can go,
    each with its trace and stored session written out. *)
Ltac handler_cases oauth2 ctx r post store :=
  let e := fresh "e" in
  let HE := fresh "HE" in
  let HA := fresh "HA" in
  let HP := fresh "HP" in
  let HC := fresh "HC" in
  let HF := fresh "HF" in
  destruct (handler_paths oauth2 ctx r post store)
    as [[e HE] | [(HA & HP & HC) | HF]];
  [ rewrite HE
  | try discriminate HP; try subst post;
    rewrite (handler_pending oauth2 ctx r store _ HA HC); cbv zeta;
    rewrite pending_run; cbv zeta;
    destruct (snd (GetOriginalURL ctx)) eqn:?;
    [| destruct (Providers_SessionProvider_SaveSession ctx _) eqn:?;
       [| destruct (snd (ForwardedProtoHost ctx)) eqn:?]]
  | rewrite (handler_finalize oauth2 ctx r post store _ HF);
    rewrite finalize_run; cbv zeta;
    destruct (Providers_SessionProvider_SaveSession ctx _) eqn:?;
    [| destruct (snd (NewAuthorizeResponse oauth2 _ _)) eqn:?];
    unfold openingCalls; try (is_var post; destruct post) ];
  unfold trace, stored, decisionCalls; simpl.

(** Goes through the members of a written-out trace. *)
Ltac members H :=
  simpl in H;
  repeat (destruct H as [H|H]; try discriminate H);
  try contradiction.

Section Extras.

Context {OAuthSession AuthorizeResponder : Type}.
Context {helpers : Helpers OAuthSession}.
Variable oauth2 : OAuth2Provider OAuthSession AuthorizeResponder.
Variable ctx : AutheliaCtx.

Lemma pending_stored
    (r : http_Request) (store : UserSession) (ar : AuthorizeRequest) :
  admitted oauth2 ctx r ar ->
  pendingCondition ctx ar store = true ->
  snd (GetOriginalURL ctx) = None ->
  Providers_SessionProvider_SaveSession ctx (pendingSession ctx ar store)
  = None ->
  stored (authorizeHandler oauth2 ctx r false store)
  = pendingSession ctx ar store.
Proof.
  intros HA HC HO HV.
  rewrite (handler_pending oauth2 ctx r store ar HA HC). cbv zeta.
  rewrite pending_run. cbv zeta. fold (pendingSession ctx ar store).
  rewrite HO, HV. destruct (snd (ForwardedProtoHost ctx)); reflexivity.
Qed.

(** X1.  A request the protocol engine cannot parse is answered, on
    either entry point, by the engine's error writer with the engine's own
    error and the request object it returned, whether or not the client
    is registered; the session is neither read nor written. *)
Theorem X1_parse_failure_touches_nothing
    (r : http_Request) (post : bool) (store : UserSession)
    (ar : AuthorizeRequest) (err : error) :
  NewAuthorizeRequest oauth2 r = (ar, Some err) ->
  filter is_response (trace (authorizeHandler oauth2 ctx r post store))
  = [EvWriteAuthorizeError ar err]
  /\ filter is_session_access (trace (authorizeHandler oauth2 ctx r post store))
     = []
  /\ filter is_policy (trace (authorizeHandler oauth2 ctx r post store)) = []
  /\ stored (authorizeHandler oauth2 ctx r post store) = store.
Proof.
  intros HP.
  rewrite (handler_parse_error oauth2 ctx r post store ar err HP).
  repeat split.
Qed.

(** X2.  Every invocation writes exactly one answer, and writing it is
    the last thing the invocation does. *)
Theorem X2_exactly_one_answer_written_last
    (r : http_Request) (post : bool) (store : UserSession) :
  exists pre e,
    trace (authorizeHandler oauth2 ctx r post store) = pre ++ [e]
    /\ is_response e = true
    /\ filter is_response pre = [].
Proof.
  exists (removelast (trace (authorizeHandler oauth2 ctx r post store))),
    (last (trace (authorizeHandler oauth2 ctx r post store)) EvGetSession).
  handler_cases oauth2 ctx r post store;
    (split; [reflexivity | split; reflexivity]).
Qed.

(** X3.  No invocation attempts more than one session save. *)
Theorem X3_at_most_one_save
    (r : http_Request) (post : bool) (store : UserSession) :
  (length (filter is_save (trace (authorizeHandler oauth2 ctx r post store)))
   <= 1)%nat.
Proof.
  handler_cases oauth2 ctx r post store; lia.
Qed.

(** X4.  After an invocation the store holds the session it held before,
    or that session with its workflow set to nil, or that session with a
    fresh workflow that has no granted scope.  The user name, the groups
    and the authentication level are never changed. *)
Theorem X4_store_changes_only_in_workflow
    (r : http_Request) (post : bool) (store : UserSession) :
  (stored (authorizeHandler oauth2 ctx r post store) = store
   \/ stored (authorizeHandler oauth2 ctx r post store)
      = set_Workflow None store
   \/ exists workflow,
        stored (authorizeHandler oauth2 ctx r post store)
        = set_Workflow (Some workflow) store
        /\ GrantedScopes workflow = [])
  /\ Username (stored (authorizeHandler oauth2 ctx r post store))
     = Username store
  /\ Groups (stored (authorizeHandler oauth2 ctx r post store))
     = Groups store
  /\ AuthenticationLevel (stored (authorizeHandler oauth2 ctx r post store))
     = AuthenticationLevel store.
Proof.
  handler_cases oauth2 ctx r post store;
    (split; [| repeat split]);
    first [ now left
          | right; left; reflexivity
          | right; right; eexists; split; reflexivity ].
Qed.

(** X5.  A save is attempted only after the session has been read and
    before any answer is written, and the record saved keeps the user
    name, the groups and the authentication level of the stored session. *)
Theorem X5_save_follows_read_and_keeps_principal
    (r : http_Request) (post : bool) (store userSession : UserSession)
    (err : option error)
    (pre post_ : list (Event OAuthSession AuthorizeResponder)) :
  trace (authorizeHandler oauth2 ctx r post store)
  = pre ++ EvSaveSession userSession err :: post_ ->
  In EvGetSession pre
  /\ filter is_response pre = []
  /\ Username userSession = Username store
  /\ Groups userSession = Groups store
  /\ AuthenticationLevel userSession = AuthenticationLevel store.
Proof.
  handler_cases oauth2 ctx r post store; intros H; split_trace H;
    injection Hev as -> ->; subst; simpl; repeat split; tauto.
Qed.

(** X6.  The lookup returns the first registered client with the given
    ID: entries after it, duplicates of the ID included, are never
    reached. *)
Theorem X6_lookup_returns_first_match
    (c : OpenIDConnectClientConfiguration)
    (before after : list OpenIDConnectClientConfiguration) :
  (forall c', In c' before -> ID c' <> ID c) ->
  getOIDCClientConfig (ID c) {| Clients := before ++ c :: after |} = Some c.
Proof.
  unfold getOIDCClientConfig. simpl.
  induction before as [|c0 rest IH]; simpl; intros H.
  - now rewrite String.eqb_refl.
  - destruct (String.eqb_spec (ID c) (ID c0)) as [E|NE].
    + exfalso. apply (H c0); auto.
    + apply IH. intros c' HIn. apply H. now right.
Qed.

(** X7.  Finalization leaves no grant behind.  After an invocation that
    reaches the finalize branch and saves, the store holds no workflow, so
    a browser-navigation invocation started on the store as that
    invocation left it, and requesting at least one scope, finds consent
    missing and does not call the response builder; the slice comparison
    is not consulted. *)
Theorem X7_grant_is_consumed_by_finalization
    (r : http_Request) (post : bool) (store : UserSession)
    (ar : AuthorizeRequest) :
  finalizes oauth2 ctx r ar post store ->
  Providers_SessionProvider_SaveSession ctx (set_Workflow None store) = None ->
  forall (oauth2' : OAuth2Provider OAuthSession AuthorizeResponder)
         ctx' r' ar',
    admitted oauth2' ctx' r' ar' ->
    GetRequestedScopes ar' <> [] ->
    isConsentMissing ar' (stored (authorizeHandler oauth2 ctx r post store))
    = true
    /\ filter is_build
         (trace (AuthorizeEndpointGet oauth2' ctx' r'
                   (stored (authorizeHandler oauth2 ctx r post store))))
       = [].
Proof.
  intros HF HV oauth2' ctx' r' ar' HA' HN.
  assert (HS : stored (authorizeHandler oauth2 ctx r post store)
               = set_Workflow None store).
  { rewrite (handler_finalize oauth2 ctx r post store ar HF).
    rewrite finalize_run. cbv zeta. rewrite HV. reflexivity. }
  rewrite HS.
  assert (HM : isConsentMissing ar' (set_Workflow None store) = true).
  { unfold isConsentMissing. simpl.
    destruct (GetRequestedScopes ar'); [contradiction | reflexivity]. }
  split; [exact HM|].
  assert (HC : pendingCondition ctx' ar' (set_Workflow None store) = true).
  { unfold pendingCondition. rewrite HM. apply orb_true_r. }
  unfold AuthorizeEndpointGet.
  rewrite (handler_pending oauth2' ctx' r' _ ar' HA' HC). cbv zeta.
  rewrite pending_run. cbv zeta. unfold trace, decisionCalls.
  destruct (snd (GetOriginalURL ctx'));
    [| destruct (Providers_SessionProvider_SaveSession ctx' _);
       [| destruct (snd (ForwardedProtoHost ctx'))]];
    reflexivity.
Qed.

(** X8.  When the pending branch saves, the store holds the session
    with the workflow of the current request and nothing of the workflow
    it held before: the client, the scopes, the two URIs and the level are
    those of this invocation and no scope is granted. *)
Theorem X8_pending_overwrites_stale_workflow
    (r : http_Request) (store : UserSession) (ar : AuthorizeRequest)
    (stale : option OIDCWorkflowSession) :
  admitted oauth2 ctx r ar ->
  pendingCondition ctx ar (set_Workflow stale store) = true ->
  snd (GetOriginalURL ctx) = None ->
  Providers_SessionProvider_SaveSession ctx (pendingSession ctx ar store)
  = None ->
  stored (AuthorizeEndpointGet oauth2 ctx r (set_Workflow stale store))
  = set_Workflow
      (Some {| ClientID := GetClient_GetID ar;
               RequestedScopes := GetRequestedScopes ar;
               GrantedScopes := [];
               AuthURI := URL_String (fst (GetOriginalURL ctx));
               TargetURI := URL_String (GetRedirectURI ar);
               RequiredAuthorizationLevel := requiredLevelOf ctx ar store |})
      store.
Proof.
  intros HA HC HO HV. unfold AuthorizeEndpointGet.
  rewrite (pending_stored r (set_Workflow stale store) ar HA HC HO HV).
  reflexivity.
Qed.

(** X9.  The browser is redirected only once the workflow is stored: a
    redirect is the last call of its invocation, has status 302, and
    comes after a successful save of a session carrying a workflow, which
    is the session the store holds at the end. *)
Theorem X9_redirect_only_after_workflow_saved
    (r : http_Request) (post : bool) (store : UserSession)
    (url : string) (code : Z)
    (pre post_ : list (Event OAuthSession AuthorizeResponder)) :
  trace (authorizeHandler oauth2 ctx r post store)
  = pre ++ EvHttpRedirect url code :: post_ ->
  post_ = [] /\ code = 302%Z
  /\ exists workflow,
       Workflow (stored (authorizeHandler oauth2 ctx r post store))
       = Some workflow
       /\ In (EvSaveSession (stored (authorizeHandler oauth2 ctx r post store))
                None) pre.
Proof.
  handler_cases oauth2 ctx r post store; intros H; split_trace H.
  injection Hev as -> ->. subst. split; [reflexivity | split; [reflexivity|]].
  eexists. split; [reflexivity | simpl; tauto].
Qed.

(** X10.  On the browser-navigation entry point the response builder is
    called only for an admitted request whose session has a sufficient
    authentication level and for which consent is not missing, and the
    request object it receives is the parsed one with every requested
    scope and audience granted. *)
Theorem X10_builder_called_only_when_satisfied
    (r : http_Request) (store : UserSession)
    (ar' : AuthorizeRequest) (oauthSession : OAuthSession) :
  In (EvNewAuthorizeResponse ar' oauthSession)
    (trace (AuthorizeEndpointGet oauth2 ctx r store)) ->
  admitted oauth2 ctx r (fst (NewAuthorizeRequest oauth2 r))
  /\ IsAuthLevelSufficient (AuthenticationLevel store)
       (requiredLevelOf ctx (fst (NewAuthorizeRequest oauth2 r)) store)
     = true
  /\ isConsentMissing (fst (NewAuthorizeRequest oauth2 r)) store = false
  /\ ar' = grantAll (fst (NewAuthorizeRequest oauth2 r)).
Proof.
  unfold AuthorizeEndpointGet.
  handler_cases oauth2 ctx r false store; intros H; members H.
  all: injection H as <- _.
  all: destruct HF as [HA [HF|HF]]; [discriminate|].
  all: unfold pendingCondition, isAuthInsufficient in HF.
  all: apply orb_false_iff in HF; destruct HF as [HL HM].
  all: apply negb_false_iff in HL.
  all: repeat split; try assumption; apply HA.
Qed.

(** X11.  A request without scopes is never sent to the consent endpoint:
    whenever such a request is redirected, the target is the entry point
    with the [workflow=openid] marker. *)
Theorem X11_no_scopes_never_redirects_to_consent
    (r : http_Request) (store : UserSession) (ar : AuthorizeRequest)
    (url : string) (code : Z) :
  admitted oauth2 ctx r ar ->
  GetRequestedScopes ar = [] ->
  In (EvHttpRedirect url code)
    (trace (AuthorizeEndpointGet oauth2 ctx r store)) ->
  url = (fst (ForwardedProtoHost ctx) ++ "?workflow=openid")%string
  /\ isAuthInsufficient store (requiredLevelOf ctx ar store) = true.
Proof.
  intros HA HS. unfold AuthorizeEndpointGet.
  assert (HM : isConsentMissing ar store = false).
  { unfold isConsentMissing. now rewrite HS. }
  destruct (pendingCondition ctx ar store) eqn:HC.
  - rewrite (handler_pending oauth2 ctx r store ar HA HC). cbv zeta.
    rewrite pending_run. cbv zeta. rewrite HM.
    unfold pendingCondition in HC. rewrite HM, orb_false_r in HC.
    unfold trace, decisionCalls.
    destruct (snd (GetOriginalURL ctx));
      [| destruct (Providers_SessionProvider_SaveSession ctx _);
         [| destruct (snd (ForwardedProtoHost ctx))]];
      intros H; members H.
    injection H as <- _. split; [reflexivity | exact HC].
  - rewrite (handler_satisfied oauth2 ctx r store ar HA HC).
    rewrite finalize_run. cbv zeta. unfold trace, decisionCalls.
    destruct (Providers_SessionProvider_SaveSession ctx _);
      [| destruct (snd (NewAuthorizeResponse oauth2 _ _))];
      intros H; members H.
Qed.

(** X12.  Of a stored workflow the handler reads the granted scopes and
    nothing else: replacing the workflow by any other with the same
    granted scopes, whatever its client, requested scopes, URIs and
    required level, leaves every call of the invocation unchanged.  In
    particular the stored required level is never used; the level is asked
    from the authorizer again at each invocation. *)
Theorem X12_only_granted_scopes_are_read
    (r : http_Request) (post : bool) (store : UserSession)
    (workflow workflow' : OIDCWorkflowSession) :
  Workflow store = Some workflow ->
  GrantedScopes workflow' = GrantedScopes workflow ->
  trace (authorizeHandler oauth2 ctx r post
           (set_Workflow (Some workflow') store))
  = trace (authorizeHandler oauth2 ctx r post store).
Proof.
  intros HW HG. set (other := set_Workflow (Some workflow') store).
  destruct (NewAuthorizeRequest oauth2 r) as [ar [e|]] eqn:HP.
  { now rewrite !(handler_parse_error oauth2 ctx r post _ ar e HP). }
  destruct (getOIDCClientConfig (GetClient_GetID ar)
              (Configuration_IdentityProviders_OIDC ctx)) as [c|] eqn:HL.
  2:{ now rewrite !(handler_client_not_found oauth2 ctx r post _ ar HP HL). }
  assert (HA : admitted oauth2 ctx r ar) by (split; congruence).
  assert (HM : isConsentMissing ar other = isConsentMissing ar store).
  { unfold isConsentMissing. rewrite HW. simpl. now rewrite HG. }
  assert (HE : pendingCondition ctx ar other = pendingCondition ctx ar store).
  { unfold pendingCondition. rewrite HM. reflexivity. }
  assert (HZ : trace (authorizeHandler_finalize oauth2 ctx ar other)
               = trace (authorizeHandler_finalize oauth2 ctx ar store)).
  { rewrite !finalize_run. cbv zeta.
    change (set_Workflow None other) with (set_Workflow None store).
    destruct (Providers_SessionProvider_SaveSession ctx _); reflexivity. }
  destruct post.
  { rewrite !(handler_post oauth2 ctx r _ ar HA). unfold trace at 1 3.
    simpl. now rewrite HZ. }
  destruct (pendingCondition ctx ar store) eqn:HC.
  - rewrite (handler_pending oauth2 ctx r other ar HA HE).
    rewrite (handler_pending oauth2 ctx r store ar HA HC). cbv zeta.
    rewrite !pending_run. cbv zeta. rewrite HM. unfold trace.
    change (set_Workflow
              (Some (beginWorkflow (GetClient_GetID ar) ar
                       (fst (GetOriginalURL ctx)) (GetRedirectURI ar)
                       (requiredLevelOf ctx ar other))) other)
      with (pendingSession ctx ar store).
    fold (pendingSession ctx ar store).
    destruct (snd (GetOriginalURL ctx));
      [| destruct (Providers_SessionProvider_SaveSession ctx _);
         [| destruct (snd (ForwardedProtoHost ctx))]];
      reflexivity.
  - rewrite (handler_satisfied oauth2 ctx r other ar HA HE).
    rewrite (handler_satisfied oauth2 ctx r store ar HA HC).
    unfold trace at 1 3. simpl. now rewrite HZ.
Qed.

(** X13.  Navigating again while the flow is still pending changes
    nothing more: a second browser-navigation invocation of the same
    request that takes the pending branch again leaves in the store
    exactly what the first one left. *)
Theorem X13_pending_twice_stores_the_same
    (r : http_Request) (store : UserSession) (ar : AuthorizeRequest) :
  admitted oauth2 ctx r ar ->
  pendingCondition ctx ar store = true ->
  pendingCondition ctx ar (pendingSession ctx ar store) = true ->
  snd (GetOriginalURL ctx) = None ->
  Providers_SessionProvider_SaveSession ctx (pendingSession ctx ar store)
  = None ->
  stored (AuthorizeEndpointGet oauth2 ctx r
            (stored (AuthorizeEndpointGet oauth2 ctx r store)))
  = stored (AuthorizeEndpointGet oauth2 ctx r store).
Proof.
  intros HA HC HC' HO HV. unfold AuthorizeEndpointGet.
  rewrite (pending_stored r store ar HA HC HO HV).
  apply (pending_stored r (pendingSession ctx ar store) ar HA HC' HO HV).
Qed.

(** X14.  When authentication is sufficient and consent is not missing,
    the two entry points do the same from the second session read on:
    they leave the same session in the store and write the same answer. *)
Theorem X14_entry_points_agree_when_satisfied
    (r : http_Request) (store : UserSession) (ar : AuthorizeRequest) :
  admitted oauth2 ctx r ar ->
  pendingCondition ctx ar store = false ->
  stored (AuthorizeEndpointGet oauth2 ctx r store)
  = stored (AuthorizeEndpointPost oauth2 ctx r store)
  /\ filter is_response (trace (AuthorizeEndpointGet oauth2 ctx r store))
     = filter is_response (trace (AuthorizeEndpointPost oauth2 ctx r store))
  /\ filter is_save (trace (AuthorizeEndpointGet oauth2 ctx r store))
     = filter is_save (trace (AuthorizeEndpointPost oauth2 ctx r store))
  /\ filter is_build (trace (AuthorizeEndpointGet oauth2 ctx r store))
     = filter is_build (trace (AuthorizeEndpointPost oauth2 ctx r store)).
Proof.
  intros HA HC. unfold AuthorizeEndpointGet, AuthorizeEndpointPost.
  rewrite (handler_satisfied oauth2 ctx r store ar HA HC).
  rewrite (handler_post oauth2 ctx r store ar HA).
  unfold stored at 1 3, trace at 1 3 5 7 9 11, decisionCalls. simpl.
  repeat split.
Qed.

End Extras.

(** ** The further properties on the concrete deployment *)

Lemma X1_witness :
  NewAuthorizeRequest
    (Scenario.provider (Scenario.authorizeRequest "ghost" ["openid"])
       (Some "invalid_request") None)
    Scenario.request
  = (Scenario.authorizeRequest "ghost" ["openid"], Some "invalid_request")
  /\ filter is_response
       (trace (authorizeHandler
                 (Scenario.provider
                    (Scenario.authorizeRequest "ghost" ["openid"])
                    (Some "invalid_request") None)
                 (Scenario.context OneFactor Scenario.originalURL
                    Scenario.protoHost None)
                 Scenario.request false (Scenario.john TwoFactor None)))
     = [EvWriteAuthorizeError (Scenario.authorizeRequest "ghost" ["openid"])
          "invalid_request"].
Proof.
  split; [reflexivity|].
  destruct (X1_parse_failure_touches_nothing (helpers := Scenario.helpers)
              (Scenario.provider
                 (Scenario.authorizeRequest "ghost" ["openid"])
                 (Some "invalid_request") None)
              (Scenario.context OneFactor Scenario.originalURL
                 Scenario.protoHost None)
              Scenario.request false (Scenario.john TwoFactor None)
              (Scenario.authorizeRequest "ghost" ["openid"])
              "invalid_request" eq_refl) as (H & _).
  exact H.
Defined.

Lemma X5_witness :
  trace (authorizeHandler
           (Scenario.provider
              (Scenario.authorizeRequest "app" ["openid"]) None None)
           (Scenario.context TwoFactor Scenario.originalURL
              Scenario.protoHost None)
           Scenario.request false (Scenario.john NotAuthenticated None))
  = [EvNewAuthorizeRequest Scenario.request;
     EvGetSession;
     EvGetRequiredLevel
       (subjectOf
          (Scenario.context TwoFactor Scenario.originalURL
             Scenario.protoHost None)
          (Scenario.john NotAuthenticated None))
       (NewObjectRaw "https://app.example.com/callback" "GET");
     EvGetOriginalURL Scenario.originalURL]
    ++ EvSaveSession
         (pendingSession
            (Scenario.context TwoFactor Scenario.originalURL
               Scenario.protoHost None)
            (Scenario.authorizeRequest "app" ["openid"])
            (Scenario.john NotAuthenticated None))
         None
       :: [EvForwardedProtoHost Scenario.protoHost;
           EvHttpRedirect "https://auth.example.com/consent" 302]
  /\ Username
       (pendingSession
          (Scenario.context TwoFactor Scenario.originalURL
             Scenario.protoHost None)
          (Scenario.authorizeRequest "app" ["openid"])
          (Scenario.john NotAuthenticated None))
     = Username (Scenario.john NotAuthenticated None).
Proof.
  assert (HT :
    trace (authorizeHandler
               (Scenario.provider
                  (Scenario.authorizeRequest "app" ["openid"]) None None)
               (Scenario.context TwoFactor Scenario.originalURL
                  Scenario.protoHost None)
               Scenario.request false (Scenario.john NotAuthenticated None))
      = [EvNewAuthorizeRequest Scenario.request;
         EvGetSession;
         EvGetRequiredLevel
           (subjectOf
              (Scenario.context TwoFactor Scenario.originalURL
                 Scenario.protoHost None)
              (Scenario.john NotAuthenticated None))
           (NewObjectRaw "https://app.example.com/callback" "GET");
         EvGetOriginalURL Scenario.originalURL]
        ++ EvSaveSession
             (pendingSession
                (Scenario.context TwoFactor Scenario.originalURL
                   Scenario.protoHost None)
                (Scenario.authorizeRequest "app" ["openid"])
                (Scenario.john NotAuthenticated None))
             None
           :: [EvForwardedProtoHost Scenario.protoHost;
               EvHttpRedirect "https://auth.example.com/consent" 302])
    by reflexivity.
  split; [exact HT|].
  destruct (X5_save_follows_read_and_keeps_principal
              (helpers := Scenario.helpers) _ _ _ _ _ _ _ _ _ HT)
    as (_ & _ & H & _).
  exact H.
Defined.

Lemma X6_witness :
  (forall c', In c' [ {| ID := "app"; Description := "Application" |} ] ->
              ID c' <> ID {| ID := "wiki"; Description := "Wiki" |})
  /\ getOIDCClientConfig "wiki"
       {| Clients :=
            [ {| ID := "app"; Description := "Application" |} ]
            ++ {| ID := "wiki"; Description := "Wiki" |}
            :: [ {| ID := "wiki"; Description := "Second wiki" |} ] |}
     = Some {| ID := "wiki"; Description := "Wiki" |}.
Proof.
  assert (H : forall c',
             In c' [ {| ID := "app"; Description := "Application" |} ] ->
             ID c' <> ID {| ID := "wiki"; Description := "Wiki" |})
    by (intros c' [<-|[]]; discriminate).
  split; [exact H|].
  exact (X6_lookup_returns_first_match
           {| ID := "wiki"; Description := "Wiki" |}
           [ {| ID := "app"; Description := "Application" |} ]
           [ {| ID := "wiki"; Description := "Second wiki" |} ] H).
Defined.

Lemma X7_witness :
  finalizes
    (Scenario.provider (Scenario.authorizeRequest "app" ["openid"]) None None)
    (Scenario.context OneFactor Scenario.originalURL Scenario.protoHost None)
    Scenario.request (Scenario.authorizeRequest "app" ["openid"]) false
    (Scenario.john TwoFactor (Some (Scenario.consented "app" ["openid"])))
  /\ filter is_build
       (trace
          (AuthorizeEndpointGet
             (Scenario.provider
                (Scenario.authorizeRequest "app" ["openid"]) None None)
             (Scenario.context OneFactor Scenario.originalURL
                Scenario.protoHost None)
             Scenario.request
             (stored
                (authorizeHandler
                   (Scenario.provider
                      (Scenario.authorizeRequest "app" ["openid"]) None None)
                   (Scenario.context OneFactor Scenario.originalURL
                      Scenario.protoHost None)
                   Scenario.request false
                   (Scenario.john TwoFactor
                      (Some (Scenario.consented "app" ["openid"])))))))
     = [].
Proof.
  assert (HA : admitted
                 (Scenario.provider
                    (Scenario.authorizeRequest "app" ["openid"]) None None)
                 (Scenario.context OneFactor Scenario.originalURL
                    Scenario.protoHost None)
                 Scenario.request (Scenario.authorizeRequest "app" ["openid"]))
    by (split; [reflexivity | discriminate]).
  assert (HF : finalizes
                 (Scenario.provider
                    (Scenario.authorizeRequest "app" ["openid"]) None None)
                 (Scenario.context OneFactor Scenario.originalURL
                    Scenario.protoHost None)
                 Scenario.request (Scenario.authorizeRequest "app" ["openid"])
                 false
                 (Scenario.john TwoFactor
                    (Some (Scenario.consented "app" ["openid"]))))
    by (split; [exact HA | right; reflexivity]).
  split; [exact HF|].
  assert (HN : GetRequestedScopes (Scenario.authorizeRequest "app" ["openid"])
               <> [])
    by discriminate.
  exact (proj2 (X7_grant_is_consumed_by_finalization
                  (helpers := Scenario.helpers) _ _ _ _ _ _ HF eq_refl
                  _ _ _ _ HA HN)).
Defined.

Lemma X8_witness :
  pendingCondition (helpers := Scenario.helpers)
    (Scenario.context OneFactor Scenario.originalURL Scenario.protoHost None)
    (Scenario.authorizeRequest "app" ["openid"])
    (set_Workflow (Some (Scenario.consented "wiki" ["email"]))
       (Scenario.john TwoFactor None)) = true
  /\ Workflow
       (stored
          (AuthorizeEndpointGet
             (Scenario.provider
                (Scenario.authorizeRequest "app" ["openid"]) None None)
             (Scenario.context OneFactor Scenario.originalURL
                Scenario.protoHost None)
             Scenario.request
             (set_Workflow (Some (Scenario.consented "wiki" ["email"]))
                (Scenario.john TwoFactor None))))
     = Some {| ClientID := "app";
               RequestedScopes := ["openid"];
               GrantedScopes := [];
               AuthURI := "https://auth.example.com/api/oidc/authorize";
               TargetURI := "https://app.example.com/callback";
               RequiredAuthorizationLevel := OneFactor |}.
Proof.
  split; [reflexivity|].
  assert (HA : admitted
                 (Scenario.provider
                    (Scenario.authorizeRequest "app" ["openid"]) None None)
                 (Scenario.context OneFactor Scenario.originalURL
                    Scenario.protoHost None)
                 Scenario.request (Scenario.authorizeRequest "app" ["openid"]))
    by (split; [reflexivity | discriminate]).
  rewrite (X8_pending_overwrites_stale_workflow
             (helpers := Scenario.helpers) _ _ _
             (Scenario.john TwoFactor None) _
             (Some (Scenario.consented "wiki" ["email"]))
             HA eq_refl eq_refl eq_refl).
  reflexivity.
Defined.

Lemma X9_witness :
  trace (authorizeHandler
           (Scenario.provider
              (Scenario.authorizeRequest "app" []) None None)
           (Scenario.context TwoFactor Scenario.originalURL
              Scenario.protoHost None)
           Scenario.request false (Scenario.john OneFactor None))
  = [EvNewAuthorizeRequest Scenario.request;
     EvGetSession;
     EvGetRequiredLevel
       (subjectOf
          (Scenario.context TwoFactor Scenario.originalURL
             Scenario.protoHost None)
          (Scenario.john OneFactor None))
       (NewObjectRaw "https://app.example.com/callback" "GET");
     EvGetOriginalURL Scenario.originalURL;
     EvSaveSession
       (pendingSession
          (Scenario.context TwoFactor Scenario.originalURL
             Scenario.protoHost None)
          (Scenario.authorizeRequest "app" [])
          (Scenario.john OneFactor None))
       None;
     EvForwardedProtoHost Scenario.protoHost]
    ++ EvHttpRedirect "https://auth.example.com?workflow=openid" 302 :: []
  /\ exists workflow,
       Workflow
         (stored (authorizeHandler
                    (Scenario.provider
                       (Scenario.authorizeRequest "app" []) None None)
                    (Scenario.context TwoFactor Scenario.originalURL
                       Scenario.protoHost None)
                    Scenario.request false (Scenario.john OneFactor None)))
       = Some workflow.
Proof.
  assert (HT :
    trace (authorizeHandler
               (Scenario.provider
                  (Scenario.authorizeRequest "app" []) None None)
               (Scenario.context TwoFactor Scenario.originalURL
                  Scenario.protoHost None)
               Scenario.request false (Scenario.john OneFactor None))
      = [EvNewAuthorizeRequest Scenario.request;
         EvGetSession;
         EvGetRequiredLevel
           (subjectOf
              (Scenario.context TwoFactor Scenario.originalURL
                 Scenario.protoHost None)
              (Scenario.john OneFactor None))
           (NewObjectRaw "https://app.example.com/callback" "GET");
         EvGetOriginalURL Scenario.originalURL;
         EvSaveSession
           (pendingSession
              (Scenario.context TwoFactor Scenario.originalURL
                 Scenario.protoHost None)
              (Scenario.authorizeRequest "app" [])
              (Scenario.john OneFactor None))
           None;
         EvForwardedProtoHost Scenario.protoHost]
        ++ EvHttpRedirect "https://auth.example.com?workflow=openid" 302 :: [])
    by reflexivity.
  split; [exact HT|].
  destruct (X9_redirect_only_after_workflow_saved
              (helpers := Scenario.helpers) _ _ _ _ _ _ _ _ _ HT)
    as (_ & _ & w & H & _).
  exists w. exact H.
Defined.

Lemma X10_witness :
  In (EvNewAuthorizeResponse
        (grantAll (Scenario.authorizeRequest "app" ["openid"]))
        {| Scenario.session_Subject := "john";
           Scenario.session_Scopes := ["openid"];
           Scenario.session_Audience := ["https://app.example.com"] |})
    (trace (AuthorizeEndpointGet
              (Scenario.provider
                 (Scenario.authorizeRequest "app" ["openid"]) None None)
              (Scenario.context OneFactor Scenario.originalURL
                 Scenario.protoHost None)
              Scenario.request
              (Scenario.john TwoFactor
                 (Some (Scenario.consented "app" ["openid"])))))
  /\ isConsentMissing (helpers := Scenario.helpers)
       (Scenario.authorizeRequest "app" ["openid"])
       (Scenario.john TwoFactor (Some (Scenario.consented "app" ["openid"])))
     = false.
Proof.
  assert (HIn : In (EvNewAuthorizeResponse
                      (grantAll (Scenario.authorizeRequest "app" ["openid"]))
                      {| Scenario.session_Subject := "john";
                         Scenario.session_Scopes := ["openid"];
                         Scenario.session_Audience :=
                           ["https://app.example.com"] |})
                  (trace (AuthorizeEndpointGet
                            (Scenario.provider
                               (Scenario.authorizeRequest "app" ["openid"])
                               None None)
                            (Scenario.context OneFactor Scenario.originalURL
                               Scenario.protoHost None)
                            Scenario.request
                            (Scenario.john TwoFactor
                               (Some (Scenario.consented "app" ["openid"]))))))
    by (simpl; tauto).
  split; [exact HIn|].
  destruct (X10_builder_called_only_when_satisfied
              (helpers := Scenario.helpers) _ _ _ _ _ _ HIn)
    as (_ & _ & H & _).
  exact H.
Defined.

Lemma X11_witness :
  admitted
    (Scenario.provider (Scenario.authorizeRequest "app" []) None None)
    (Scenario.context TwoFactor Scenario.originalURL Scenario.protoHost None)
    Scenario.request (Scenario.authorizeRequest "app" [])
  /\ In (EvHttpRedirect "https://auth.example.com?workflow=openid" 302)
       (trace (AuthorizeEndpointGet
                 (Scenario.provider
                    (Scenario.authorizeRequest "app" []) None None)
                 (Scenario.context TwoFactor Scenario.originalURL
                    Scenario.protoHost None)
                 Scenario.request
                 (Scenario.john OneFactor
                    (Some (Scenario.consented "app" ["openid"])))))
  /\ isAuthInsufficient (helpers := Scenario.helpers)
       (Scenario.john OneFactor (Some (Scenario.consented "app" ["openid"])))
       TwoFactor
     = true.
Proof.
  assert (HA : admitted
                 (Scenario.provider
                    (Scenario.authorizeRequest "app" []) None None)
                 (Scenario.context TwoFactor Scenario.originalURL
                    Scenario.protoHost None)
                 Scenario.request (Scenario.authorizeRequest "app" []))
    by (split; [reflexivity | discriminate]).
  assert (HIn : In (EvHttpRedirect
                      "https://auth.example.com?workflow=openid" 302)
                  (trace (AuthorizeEndpointGet
                            (Scenario.provider
                               (Scenario.authorizeRequest "app" []) None None)
                            (Scenario.context TwoFactor Scenario.originalURL
                               Scenario.protoHost None)
                            Scenario.request
                            (Scenario.john OneFactor
                               (Some (Scenario.consented "app" ["openid"]))))))
    by (simpl; tauto).
  split; [exact HA | split; [exact HIn|]].
  exact (proj2 (X11_no_scopes_never_redirects_to_consent
                  (helpers := Scenario.helpers) _ _ _ _ _ _ _
                  HA eq_refl HIn)).
Defined.

Lemma X12_witness :
  Workflow (Scenario.john TwoFactor (Some (Scenario.consented "app" ["openid"])))
  = Some (Scenario.consented "app" ["openid"])
  /\ GrantedScopes
       {| ClientID := "wiki";
          RequestedScopes := ["email"];
          GrantedScopes := ["openid"];
          AuthURI := "https://elsewhere.example.com/";
          TargetURI := "https://wiki.example.com/callback";
          RequiredAuthorizationLevel := TwoFactor |}
     = GrantedScopes (Scenario.consented "app" ["openid"])
  /\ trace (authorizeHandler
              (Scenario.provider
                 (Scenario.authorizeRequest "app" ["openid"]) None None)
              (Scenario.context OneFactor Scenario.originalURL
                 Scenario.protoHost None)
              Scenario.request false
              (set_Workflow
                 (Some {| ClientID := "wiki";
                          RequestedScopes := ["email"];
                          GrantedScopes := ["openid"];
                          AuthURI := "https://elsewhere.example.com/";
                          TargetURI := "https://wiki.example.com/callback";
                          RequiredAuthorizationLevel := TwoFactor |})
                 (Scenario.john TwoFactor
                    (Some (Scenario.consented "app" ["openid"])))))
     = trace (authorizeHandler
                (Scenario.provider
                   (Scenario.authorizeRequest "app" ["openid"]) None None)
                (Scenario.context OneFactor Scenario.originalURL
                   Scenario.protoHost None)
                Scenario.request false
                (Scenario.john TwoFactor
                   (Some (Scenario.consented "app" ["openid"])))).
Proof.
  split; [reflexivity | split; [reflexivity|]].
  exact (X12_only_granted_scopes_are_read (helpers := Scenario.helpers)
           (Scenario.provider
              (Scenario.authorizeRequest "app" ["openid"]) None None)
           (Scenario.context OneFactor Scenario.originalURL
              Scenario.protoHost None)
           Scenario.request false
           (Scenario.john TwoFactor
              (Some (Scenario.consented "app" ["openid"])))
           (Scenario.consented "app" ["openid"])
           {| ClientID := "wiki";
              RequestedScopes := ["email"];
              GrantedScopes := ["openid"];
              AuthURI := "https://elsewhere.example.com/";
              TargetURI := "https://wiki.example.com/callback";
              RequiredAuthorizationLevel := TwoFactor |}
           eq_refl eq_refl).
Defined.

Lemma X13_witness :
  admitted
    (Scenario.provider (Scenario.authorizeRequest "app" ["openid"]) None None)
    (Scenario.context TwoFactor Scenario.originalURL Scenario.protoHost None)
    Scenario.request (Scenario.authorizeRequest "app" ["openid"])
  /\ stored
       (AuthorizeEndpointGet
          (Scenario.provider
             (Scenario.authorizeRequest "app" ["openid"]) None None)
          (Scenario.context TwoFactor Scenario.originalURL
             Scenario.protoHost None)
          Scenario.request
          (stored
             (AuthorizeEndpointGet
                (Scenario.provider
                   (Scenario.authorizeRequest "app" ["openid"]) None None)
                (Scenario.context TwoFactor Scenario.originalURL
                   Scenario.protoHost None)
                Scenario.request (Scenario.john NotAuthenticated None))))
     = stored
         (AuthorizeEndpointGet
            (Scenario.provider
               (Scenario.authorizeRequest "app" ["openid"]) None None)
            (Scenario.context TwoFactor Scenario.originalURL
               Scenario.protoHost None)
            Scenario.request (Scenario.john NotAuthenticated None)).
Proof.
  assert (HA : admitted
                 (Scenario.provider
                    (Scenario.authorizeRequest "app" ["openid"]) None None)
                 (Scenario.context TwoFactor Scenario.originalURL
                    Scenario.protoHost None)
                 Scenario.request (Scenario.authorizeRequest "app" ["openid"]))
    by (split; [reflexivity | discriminate]).
  split; [exact HA|].
  exact (X13_pending_twice_stores_the_same (helpers := Scenario.helpers)
           _ _ _ (Scenario.john NotAuthenticated None) _
           HA eq_refl eq_refl eq_refl eq_refl).
Defined.

Lemma X14_witness :
  admitted
    (Scenario.provider (Scenario.authorizeRequest "app" ["openid"]) None None)
    (Scenario.context OneFactor Scenario.originalURL Scenario.protoHost None)
    Scenario.request (Scenario.authorizeRequest "app" ["openid"])
  /\ stored
       (AuthorizeEndpointGet
          (Scenario.provider
             (Scenario.authorizeRequest "app" ["openid"]) None None)
          (Scenario.context OneFactor Scenario.originalURL
             Scenario.protoHost None)
          Scenario.request
          (Scenario.john TwoFactor
             (Some (Scenario.consented "app" ["openid"]))))
     = stored
         (AuthorizeEndpointPost
            (Scenario.provider
               (Scenario.authorizeRequest "app" ["openid"]) None None)
            (Scenario.context OneFactor Scenario.originalURL
               Scenario.protoHost None)
            Scenario.request
            (Scenario.john TwoFactor
               (Some (Scenario.consented "app" ["openid"])))).
Proof.
  assert (HA : admitted
                 (Scenario.provider
                    (Scenario.authorizeRequest "app" ["openid"]) None None)
                 (Scenario.context OneFactor Scenario.originalURL
                    Scenario.protoHost None)
                 Scenario.request (Scenario.authorizeRequest "app" ["openid"]))
    by (split; [reflexivity | discriminate]).
  split; [exact HA|].
  exact (proj1 (X14_entry_points_agree_when_satisfied
                  (helpers := Scenario.helpers) _ _ _
                  (Scenario.john TwoFactor
                     (Some (Scenario.consented "app" ["openid"])))
                  _ HA eq_refl)).
Defined.
